(** * pdf2image HTTP service: validation, remote fetch, conversion
      orchestration and metadata extraction.

    A shallow embedding of [services.py], [config.py], [exceptions.py] and
    the response assembly of [main.py].  Python [str] is [string] (a
    sequence of bytes of its UTF-8 encoding), Python [bytes] is
    [list byte], [dict] is [gmap], exceptions are values of [PyExc] and a
    function that may raise and touch the file system is a computation in
    the monad [M]. *)

From Stdlib Require Import ZArith NArith List Strings.Ascii Strings.String Strings.Byte.
From stdpp Require Import gmap strings list fin_maps pretty.
Import ListNotations.
Local Open Scope string_scope.

(** ** Python built-ins used by the service *)
Module Py.

(** [bytes] objects. *)
Abbreviation bytes := (list byte).

(** The literal [b'...'] of an ASCII text. *)
Definition b (s : string) : bytes := list_byte_of_string s.

Fixpoint list_startswith {A} (eqb : A -> A -> bool) (l p : list A) {struct p} : bool :=
  match p, l with
  | [], _ => true
  | _ :: _, [] => false
  | x :: p', y :: l' => eqb x y && list_startswith eqb l' p'
  end.

(** [data.startswith(prefix)] on bytes. *)
Definition bytes_startswith (data p : bytes) : bool :=
  list_startswith Byte.eqb data p.

Definition chars (s : string) : list ascii := list_ascii_of_string s.

(** [s.endswith(p)] and [p in s] on strings. *)
Definition endswith (s p : string) : bool :=
  list_startswith Ascii.eqb (rev (chars s)) (rev (chars p)).

Fixpoint list_contains (l p : list ascii) : bool :=
  list_startswith Ascii.eqb l p ||
  match l with
  | [] => false
  | _ :: l' => list_contains l' p
  end.

Definition contains (p s : string) : bool := list_contains (chars s) (chars p).

(** [str.lower] and [str.upper]; only the ASCII letters matter to the
    comparisons the service makes. *)
Definition lower_char (c : ascii) : ascii :=
  let n := N_of_ascii c in
  if ((65 <=? n) && (n <=? 90))%N then ascii_of_N (n + 32) else c.

Definition upper_char (c : ascii) : ascii :=
  let n := N_of_ascii c in
  if ((97 <=? n) && (n <=? 122))%N then ascii_of_N (n - 32) else c.

Definition lower (s : string) : string :=
  string_of_list_ascii (map lower_char (chars s)).

Definition upper (s : string) : string :=
  string_of_list_ascii (map upper_char (chars s)).

(** [s.rstrip('/')]. *)
Fixpoint drop_leading (c : ascii) (l : list ascii) : list ascii :=
  match l with
  | x :: l' => if Ascii.eqb x c then drop_leading c l' else l
  | [] => []
  end.

Definition rstrip (s : string) (c : ascii) : string :=
  string_of_list_ascii (rev (drop_leading c (rev (chars s)))).

(** [s[:n]]. *)
Definition str_take (n : nat) (s : string) : string :=
  string_of_list_ascii (firstn n (chars s)).

(** [str(n)] for an [int], and the truth value of an optional string. *)
Definition str_int (z : Z) : string := pretty z.

Definition truthy_str (o : option string) : bool :=
  match o with
  | Some s => negb (String.eqb s "")
  | None => false
  end.

(** Scalar values stored in dictionaries. *)
Inductive PyVal :=
| VNone
| VBool (v : bool)
| VInt (v : Z)
| VStr (v : string).

End Py.
Import Py.

(** ** [exceptions.py], with the engine's and the HTTP client's exceptions *)
Module Exceptions.

Inductive PyExc :=
| PDFInfoNotInstalledError (msg : string)
| PDFPageCountError (msg : string)
| PDFSyntaxError (msg : string)
| PDFPopplerTimeoutError (msg : string)
| TimeoutException (msg : string)
| HTTPStatusError (status_code : Z) (msg : string)
| PDF2ImageException (message error_code : string)
| OtherException (msg : string).

(** The subclasses of [PDF2ImageException] only fix the error code. *)
Definition InvalidFileFormatException (message : string) : PyExc :=
  PDF2ImageException message "INVALID_FILE_FORMAT".
Definition FileTooLargeException (message : string) : PyExc :=
  PDF2ImageException message "FILE_TOO_LARGE".
Definition ConversionFailedException (message : string) : PyExc :=
  PDF2ImageException message "CONVERSION_FAILED".
Definition PopplerNotInstalledException (message : string) : PyExc :=
  PDF2ImageException message "POPPLER_NOT_INSTALLED".
Definition PDFCorruptedException (message : string) : PyExc :=
  PDF2ImageException message "PDF_CORRUPTED".

(** [str(e)]. *)
Definition str_exc (e : PyExc) : string :=
  match e with
  | PDFInfoNotInstalledError m | PDFPageCountError m | PDFSyntaxError m
  | PDFPopplerTimeoutError m | TimeoutException m | HTTPStatusError _ m
  | PDF2ImageException m _ | OtherException m => m
  end.

End Exceptions.
Import Exceptions.

(** ** [config.py] *)
Module Config.

Record Config := {
  OUTPUT_STORAGE_TYPE : string;
  OUTPUT_DIR : string;
  OUTPUT_BASE_URL : string;
  MAX_FILE_SIZE : Z;
  POPPLER_PATH : option string
}.

Definition get_file_url (cfg : Config) (filename : string) : string :=
  rstrip (OUTPUT_BASE_URL cfg) "/" ++ "/" ++ filename.

(** The values of the environment-free defaults. *)
Definition defaults : Config := {|
  OUTPUT_STORAGE_TYPE := "file";
  OUTPUT_DIR := "/tmp/pdf2image_output";
  OUTPUT_BASE_URL := "http://localhost:8000/files";
  MAX_FILE_SIZE := 50 * 1024 * 1024;
  POPPLER_PATH := None
|}.

End Config.
Import Config.

(** ** [base64.b64encode] and [base64.b64decode] (RFC 4648, with padding) *)
Module Base64.

Definition enc_char (n : N) : ascii :=
  (if n <? 26 then ascii_of_N (65 + n)
   else if n <? 52 then ascii_of_N (97 + (n - 26))
   else if n <? 62 then ascii_of_N (48 + (n - 52))
   else if n =? 62 then "+"%char
   else "/"%char)%N.

Definition dec_char (c : ascii) : option N :=
  let n := N_of_ascii c in
  (if (65 <=? n) && (n <=? 90) then Some (n - 65)
   else if (97 <=? n) && (n <=? 122) then Some (n - 97 + 26)
   else if (48 <=? n) && (n <=? 57) then Some (n - 48 + 52)
   else if n =? 43 then Some 62
   else if n =? 47 then Some 63
   else None)%N.

(** The four sextets of a group of three octets. *)
Definition sextet0 (x : N) : N := (x / 4)%N.
Definition sextet1 (x y : N) : N := ((x mod 4) * 16 + y / 16)%N.
Definition sextet2 (y z : N) : N := ((y mod 16) * 4 + z / 64)%N.
Definition sextet3 (z : N) : N := (z mod 64)%N.

(** The three octets of a group of four sextets. *)
Definition octet0 (s0 s1 : N) : N := (s0 * 4 + s1 / 16)%N.
Definition octet1 (s1 s2 : N) : N := ((s1 mod 16) * 16 + s2 / 4)%N.
Definition octet2 (s2 s3 : N) : N := ((s2 mod 4) * 64 + s3)%N.

Fixpoint encode_chars (data : bytes) : list ascii :=
  match data with
  | [] => []
  | [x] =>
      let x := Byte.to_N x in
      [enc_char (sextet0 x); enc_char (sextet1 x 0); "="; "="]%char
  | [x; y] =>
      let x := Byte.to_N x in
      let y := Byte.to_N y in
      [enc_char (sextet0 x); enc_char (sextet1 x y); enc_char (sextet2 y 0); "="]%char
  | x :: y :: z :: rest =>
      let x := Byte.to_N x in
      let y := Byte.to_N y in
      let z := Byte.to_N z in
      enc_char (sextet0 x) :: enc_char (sextet1 x y) ::
      enc_char (sextet2 y z) :: enc_char (sextet3 z) :: encode_chars rest
  end.

(** [base64.b64encode(data).decode('utf-8')]. *)
Definition b64encode (data : bytes) : string :=
  string_of_list_ascii (encode_chars data).

Definition bytes_of_octets (l : list N) : option bytes :=
  mapM Byte.of_N l.

Fixpoint decode_chars (l : list ascii) : option bytes :=
  match l with
  | [] => Some []
  | c0 :: c1 :: c2 :: c3 :: rest =>
      s0 ← dec_char c0;
      s1 ← dec_char c1;
      match rest, Ascii.eqb c3 "=" with
      | [], true =>
          if Ascii.eqb c2 "=" then bytes_of_octets [octet0 s0 s1]
          else
            s2 ← dec_char c2;
            bytes_of_octets [octet0 s0 s1; octet1 s1 s2]
      | _, _ =>
          s2 ← dec_char c2;
          s3 ← dec_char c3;
          group ← bytes_of_octets [octet0 s0 s1; octet1 s1 s2; octet2 s2 s3];
          tail ← decode_chars rest;
          Some (group ++ tail)%list
      end
  | _ => None
  end.

Definition b64decode (s : string) : option bytes :=
  decode_chars (list_ascii_of_string s).

End Base64.
Import Base64.

(** ** [pathlib] and [os.path], on paths written as strings

    Paths are kept in their string form with [/] as the separator; the
    directory a file name is joined to is taken as already normalised. *)
Module Path.

Definition sep : ascii := "/".
Definition dot : ascii := ".".

(** The characters of the final component, reversed, and the rest of the
    reversed path from its last separator on. *)
Fixpoint split_name (rp : list ascii) : list ascii * list ascii :=
  match rp with
  | [] => ([], [])
  | c :: rp' =>
      if Ascii.eqb c sep then ([], rp)
      else let '(n, r) := split_name rp' in (c :: n, r)
  end.

(** Number of characters after the last dot of a reversed name. *)
Fixpoint rfind_dot (rn : list ascii) : option nat :=
  match rn with
  | [] => None
  | c :: rn' => if Ascii.eqb c dot then Some 0%nat else S <$> rfind_dot rn'
  end.

(** [dir / name]. *)
Definition join (dir name : string) : string := dir ++ "/" ++ name.

(** [str(path.parent)]. *)
Definition parent (p : string) : string :=
  match snd (split_name (rev (chars p))) with
  | [] => "."
  | [_] => "/"
  | _ :: r => string_of_list_ascii (rev r)
  end.

(** [path.with_suffix(suffix)]: the last suffix of the final component is
    the part from its last dot, unless that dot is its first or its last
    character; [ValueError] on a path without a final component. *)
Definition with_suffix (p suffix : string) : PyExc + string :=
  let '(rn, r) := split_name (rev (chars p)) in
  match rn with
  | [] => inl (OtherException (p ++ " has an empty name"))
  | _ :: _ =>
      let stem :=
        match rfind_dot rn with
        | Some k =>
            if (0 <? k)%nat && (S k <? length rn)%nat then skipn (S k) rn else rn
        | None => rn
        end in
      inr (string_of_list_ascii (rev r ++ rev stem)%list ++ suffix)
  end.

(** [os.path.splitext(p)[0]]: the extension starts at the last dot of the
    final component, unless only dots precede it there. *)
Definition splitext_root (p : string) : string :=
  let '(rn, r) := split_name (rev (chars p)) in
  match rfind_dot rn with
  | Some k =>
      let before := skipn (S k) rn in
      if existsb (fun c => negb (Ascii.eqb c dot)) before
      then string_of_list_ascii (rev r ++ rev before)%list
      else p
  | None => p
  end.

End Path.

(** ** [models.py] *)
Module Models.

Inductive Fmt := jpeg | png | ppm | tiff.
Inductive StorageType := st_base64 | st_file | st_both.
Inductive ImageMode := im_base64 | im_path.

Definition fmt_str (f : Fmt) : string :=
  match f with jpeg => "jpeg" | png => "png" | ppm => "ppm" | tiff => "tiff" end.
Definition storage_type_str (s : StorageType) : string :=
  match s with st_base64 => "base64" | st_file => "file" | st_both => "both" end.
Definition image_mode_str (m : ImageMode) : string :=
  match m with im_base64 => "base64" | im_path => "path" end.

Record ConversionRequest := {
  dpi : Z;
  first_page : option Z;
  last_page : option Z;
  fmt : Fmt;
  grayscale : bool;
  transparent : bool;
  thread_count : Z;
  use_pdftocairo : bool;
  timeout : Z;
  size : option Z;
  jpegopt : option (gmap string PyVal);
  storage_type : StorageType;
  image_mode : ImageMode
}.

Record ConversionResponse := {
  success : bool;
  message : string;
  pages_count : nat;
  images : option (list string);
  file_urls : option (list string);
  format : string;
  resp_storage_type : string;
  resp_image_mode : string
}.

Record ErrorResponse := {
  err_success : bool;
  err_message : string;
  err_error_code : string
}.

End Models.
Import Models.

(** ** The collaborators of the service *)

(** The keyword arguments [convert_from_bytes] is called with; a key the
    service leaves out of [convert_params] is [None] here. *)
Record ConvertParams := {
  cp_pdf_file : bytes;
  cp_dpi : Z;
  cp_fmt : string;
  cp_grayscale : bool;
  cp_transparent : bool;
  cp_thread_count : Z;
  cp_use_pdftocairo : bool;
  cp_timeout : Z;
  cp_strict : bool;
  cp_poppler_path : option string;
  cp_first_page : option Z;
  cp_last_page : option Z;
  cp_size : option Z;
  cp_jpegopt : option (gmap string PyVal)
}.

(** The rasterisation engine ([pdf2image]) and the image encoder ([PIL]):
    [Image_save img kwargs] is the byte content [img.save(fp, **kwargs)]
    writes to [fp], whether [fp] is a buffer or a file. *)
Class Engine := {
  Image : Type;
  convert_from_bytes : ConvertParams -> PyExc + list Image;
  pdfinfo_from_bytes : bytes -> bool -> PyExc + gmap string PyVal;
  Image_save : Image -> gmap string PyVal -> PyExc + bytes
}.

(** An HTTP response as [httpx] hands it over; header names in lower case. *)
Record Response := {
  status_code : Z;
  headers : gmap string string;
  content : bytes
}.

(** The process environment: configuration, the operating system's refusals
    to write below a path, the clock and the random source (indexed by the
    number of file names generated so far) and the HTTP client. *)
Class Host := {
  config : Config;
  os_fault : string -> option string;
  strftime_now : nat -> string;
  uuid4 : nat -> string;
  httpx_get : string -> Z -> PyExc + Response
}.

(** The file system and the position in the clock and random streams. *)
Record World := {
  fs_dirs : gset string;
  fs_files : gmap string bytes;
  ticks : nat
}.

(** Computations that may raise and that change the world; what was written
    before an exception stays written. *)
Definition M (A : Type) : Type := World -> (PyExc + A) * World.

Definition ret {A} (x : A) : M A := fun w => (inr x, w).
Definition raise {A} (e : PyExc) : M A := fun w => (inl e, w).
Definition bind {A B} (m : M A) (k : A -> M B) : M B :=
  fun w => match m w with
           | (inr x, w') => k x w'
           | (inl e, w') => (inl e, w')
           end.
Definition lift {A} (r : PyExc + A) : M A := fun w => (r, w).
Definition try_except {A} (m : M A) (handler : PyExc -> M A) : M A :=
  fun w => match m w with
           | (inr x, w') => (inr x, w')
           | (inl e, w') => handler e w'
           end.

Declare Scope py_scope.
Delimit Scope py_scope with py.
Notation "x <- m ;; k" := (bind m (fun x => k))
  (at level 100, m at next level, right associativity) : py_scope.
Notation "m ;;; k" := (bind m (fun _ => k))
  (at level 100, right associativity) : py_scope.
Local Open Scope py_scope.

(** ** [services.py]: class [PDFConverterService] *)
Module PDFConverterService.
Section Service.
Context {engine : Engine} {host : Host}.

(** [path.mkdir(parents=True, exist_ok=True)]; the directory named is the
    one recorded. *)
Definition mkdir (path : string) : M unit :=
  fun w =>
    match os_fault path with
    | Some msg => (inl (OtherException msg), w)
    | None =>
        (inr tt, {| fs_dirs := {[path]} ∪ fs_dirs w;
                    fs_files := fs_files w;
                    ticks := ticks w |})
    end.

Definition write_file (path : string) (data : bytes) : M unit :=
  fun w =>
    match os_fault path with
    | Some msg => (inl (OtherException msg), w)
    | None =>
        (inr tt, {| fs_dirs := fs_dirs w;
                    fs_files := <[path := data]> (fs_files w);
                    ticks := ticks w |})
    end.

(** [Config.ensure_output_dir]. *)
Definition ensure_output_dir : M string :=
  let output_path := OUTPUT_DIR config in
  mkdir output_path ;;;
  ret output_path.

Definition validate_pdf_file (pdf_data : bytes) : PyExc + unit :=
  if (length pdf_data =? 0)%nat then
    inl (PDF2ImageException "文件为空" "EMPTY_FILE")
  else if (MAX_FILE_SIZE config <? Z.of_nat (length pdf_data))%Z then
    inl (PDF2ImageException
           ("文件大小超过限制 (" ++ str_int (MAX_FILE_SIZE config / (1024 * 1024)) ++ "MB)")
           "FILE_TOO_LARGE")
  else if negb (bytes_startswith pdf_data (b "%PDF-")) then
    inl (PDF2ImageException "不是有效的PDF文件" "INVALID_PDF_FORMAT")
  else inr tt.

Definition generate_filename (page_index : nat) (fmt : string)
    (prefix : option string) : M string :=
  fun w =>
    let timestamp := strftime_now (ticks w) in
    let unique_id := str_take 8 (uuid4 (ticks w)) in
    let w' := {| fs_dirs := fs_dirs w; fs_files := fs_files w; ticks := S (ticks w) |} in
    let tail := "page_" ++ str_int (Z.of_nat page_index + 1) ++ "_" ++ timestamp
                ++ "_" ++ unique_id ++ "." ++ fmt in
    if truthy_str prefix
    then (inr (default "" prefix ++ "_" ++ tail), w')
    else (inr tail, w').

(** The truth value of an optional dictionary. *)
Definition truthy_dict (o : option (gmap string PyVal)) : bool :=
  match o with
  | Some d => negb (bool_decide (d = ∅))
  | None => false
  end.

Definition save_image_to_file (image : Image) (filepath : string) (fmt : string)
    (jpegopt : option (gmap string PyVal)) : M string :=
  try_except
    (mkdir (Path.parent filepath) ;;;
     let save_format := upper fmt in
     r <- (if String.eqb save_format "PPM"
           then filepath <- lift (Path.with_suffix filepath ".png") ;; ret ("PNG", filepath)
           else ret (save_format, filepath)) ;;
     let save_format := fst r in
     let filepath := snd r in
     let save_kwargs : gmap string PyVal := {[ "format" := VStr save_format ]} in
     let save_kwargs :=
       if String.eqb fmt "jpeg" && truthy_dict jpegopt
       then default ∅ jpegopt ∪ save_kwargs
       else save_kwargs in
     data <- lift (Image_save image save_kwargs) ;;
     write_file filepath data ;;;
     ret filepath)
    (fun e => raise (ConversionFailedException ("保存图片文件失败: " ++ str_exc e))).

(** [response.raise_for_status()]: an exception unless the status is 2xx;
    its handler reads only the status code. *)
Definition raise_for_status (response : Response) : PyExc + unit :=
  if ((200 <=? status_code response) && (status_code response <=? 299))%Z
  then inr tt
  else inl (HTTPStatusError (status_code response) "").

Definition download_pdf_from_url (url : string) (timeout : Z) : PyExc + bytes :=
  let body : PyExc + bytes :=
    match httpx_get url timeout with
    | inl e => inl e
    | inr response =>
        match raise_for_status response with
        | inl e => inl e
        | inr _ =>
            let content_type := lower (default "" (headers response !! "content-type")) in
            if negb (contains "application/pdf" content_type)
               && negb (endswith (lower url) ".pdf")
            then
              if negb (bytes_startswith (content response) (b "%PDF-"))
              then inl (ConversionFailedException "URL返回的不是有效的PDF文件")
              else inr (content response)
            else inr (content response)
        end
    end in
  match body with
  | inr data => inr data
  | inl (TimeoutException _) => inl (ConversionFailedException "下载PDF文件超时")
  | inl (HTTPStatusError status _) =>
      inl (ConversionFailedException ("下载PDF文件失败: HTTP " ++ str_int status))
  | inl e => inl (ConversionFailedException ("下载PDF文件失败: " ++ str_exc e))
  end.

(** The parameters of the single engine call. *)
Definition convert_params_of (pdf_data : bytes) (request : ConversionRequest)
    : ConvertParams :=
  {| cp_pdf_file := pdf_data;
     cp_dpi := dpi request;
     cp_fmt := fmt_str (fmt request);
     cp_grayscale := grayscale request;
     cp_transparent := transparent request;
     cp_thread_count := thread_count request;
     cp_use_pdftocairo := use_pdftocairo request;
     cp_timeout := timeout request;
     cp_strict := true;
     cp_poppler_path :=
       if truthy_str (POPPLER_PATH config) then POPPLER_PATH config else None;
     cp_first_page := first_page request;
     cp_last_page := last_page request;
     cp_size := size request;
     cp_jpegopt := jpegopt request |}.

(** The first loop, [for img in images], of the [base64]/[both] branch;
    [acc] is [base64_images] so far.  In path mode the first iteration
    sets [base64_images = None] and leaves the loop. *)
Fixpoint encode_pages (request : ConversionRequest) (images : list Image)
    (acc : list string) : PyExc + option (list string) :=
  match images with
  | [] => inr (Some acc)
  | img :: rest =>
      match image_mode request with
      | im_base64 =>
          let save_format := upper (fmt_str (fmt request)) in
          let save_format := if String.eqb save_format "PPM" then "PNG" else save_format in
          let save_kwargs : gmap string PyVal := {[ "format" := VStr save_format ]} in
          let save_kwargs :=
            if String.eqb (fmt_str (fmt request)) "jpeg" && truthy_dict (jpegopt request)
            then default ∅ (jpegopt request) ∪ save_kwargs
            else save_kwargs in
          match Image_save img save_kwargs with
          | inl e => inl e
          | inr img_data => encode_pages request rest (acc ++ [b64encode img_data])%list
          end
      | im_path => inr None
      end
  end.

(** [base64_images.append(x)]. *)
Definition append_payload (base64_images : option (list string)) (x : string)
    : M (option (list string)) :=
  match base64_images with
  | Some l => ret (Some (l ++ [x])%list)
  | None => raise (OtherException "'NoneType' object has no attribute 'append'")
  end.

(** The second loop, [for i, img in enumerate(images)], of the
    [file]/[both] branch, from index [i] on. *)
Fixpoint persist_pages (request : ConversionRequest) (filename_prefix : option string)
    (output_dir : string) (images : list Image) (i : nat)
    (base64_images : option (list string)) (file_urls : list string)
    : M (option (list string) * list string) :=
  match images with
  | [] => ret (base64_images, file_urls)
  | img :: rest =>
      filename <- generate_filename i (fmt_str (fmt request)) filename_prefix ;;
      let filepath := Path.join output_dir filename in
      save_image_to_file img filepath (fmt_str (fmt request)) (jpegopt request) ;;;
      let file_url := get_file_url config filename in
      let file_urls := (file_urls ++ [file_url])%list in
      base64_images <- (match image_mode request with
                        | im_path => append_payload base64_images filepath
                        | im_base64 => ret base64_images
                        end) ;;
      persist_pages request filename_prefix output_dir rest (S i) base64_images file_urls
  end.

(** [not base64_images]. *)
Definition falsy_list {A} (o : option (list A)) : bool :=
  match o with
  | None | Some [] => true
  | Some (_ :: _) => false
  end.

Definition in_storage (s : StorageType) (l : list StorageType) : bool :=
  existsb (fun t => String.eqb (storage_type_str s) (storage_type_str t)) l.

(** The body of the [try] of [convert_pdf_to_images].  A request always
    has the attributes [storage_type] and [image_mode], so the defaults of
    the two [getattr] calls are never taken. *)
Definition convert_body (pdf_data : bytes) (request : ConversionRequest)
    (filename_prefix : option string)
    : M (option (list string) * option (list string)) :=
  lift (validate_pdf_file pdf_data) ;;;
  images <- lift (convert_from_bytes (convert_params_of pdf_data request)) ;;
  base64_images <-
    (if in_storage (storage_type request) [st_base64; st_both]
     then lift (encode_pages request images [])
     else ret None) ;;
  if in_storage (storage_type request) [st_file; st_both] then
    output_dir <- ensure_output_dir ;;
    let base64_images :=
      match image_mode request with
      | im_path => if falsy_list base64_images then Some [] else base64_images
      | im_base64 => base64_images
      end in
    r <- persist_pages request filename_prefix output_dir images 0 base64_images [] ;;
    ret (fst r, Some (snd r))
  else ret (base64_images, None).

(** The [except] clauses of [convert_pdf_to_images], in their order. *)
Definition convert_handler (e : PyExc) : PyExc :=
  match e with
  | PDFInfoNotInstalledError _ =>
      PopplerNotInstalledException "Poppler工具未正确安装，请安装poppler-utils"
  | PDFPageCountError _ => PDFCorruptedException ("PDF页面计数错误: " ++ str_exc e)
  | PDFSyntaxError _ => PDFCorruptedException ("PDF语法错误: " ++ str_exc e)
  | PDFPopplerTimeoutError _ =>
      ConversionFailedException "PDF转换超时，请尝试减少页面数量或增加超时时间"
  | _ => ConversionFailedException ("PDF转换失败: " ++ str_exc e)
  end.

Definition convert_pdf_to_images (pdf_data : bytes) (request : ConversionRequest)
    (filename_prefix : option string)
    : M (option (list string) * option (list string)) :=
  try_except (convert_body pdf_data request filename_prefix)
             (fun e => raise (convert_handler e)).

(** [info.get(key)]. *)
Definition dict_get (info : gmap string PyVal) (key : string) : PyVal :=
  default VNone (info !! key).

(** The keys of the result of [get_pdf_info] with the engine's key each is
    read from. *)
Definition info_fields : list (string * string) :=
  [("pages", "Pages"); ("title", "Title"); ("subject", "Subject");
   ("author", "Author"); ("creator", "Creator"); ("producer", "Producer");
   ("creation_date", "CreationDate"); ("modification_date", "ModDate")].

Definition get_pdf_info_handler (e : PyExc) : PyExc :=
  match e with
  | PDFInfoNotInstalledError _ =>
      PopplerNotInstalledException "Poppler工具未正确安装，请安装poppler-utils"
  | PDFSyntaxError _ => PDFCorruptedException ("PDF语法错误: " ++ str_exc e)
  | _ => ConversionFailedException ("获取PDF信息失败: " ++ str_exc e)
  end.

Definition get_pdf_info (pdf_data : bytes) : PyExc + gmap string PyVal :=
  let body : PyExc + gmap string PyVal :=
    match validate_pdf_file pdf_data with
    | inl e => inl e
    | inr _ =>
        match pdfinfo_from_bytes pdf_data true with
        | inl e => inl e
        | inr info =>
            inr (<["pages" := dict_get info "Pages"]>
                 (<["title" := dict_get info "Title"]>
                 (<["subject" := dict_get info "Subject"]>
                 (<["author" := dict_get info "Author"]>
                 (<["creator" := dict_get info "Creator"]>
                 (<["producer" := dict_get info "Producer"]>
                 (<["creation_date" := dict_get info "CreationDate"]>
                 (<["modification_date" := dict_get info "ModDate"]> ∅))))))))
        end
    end in
  match body with
  | inr result => inr result
  | inl e => inl (get_pdf_info_handler e)
  end.

End Service.
End PDFConverterService.

(** ** [main.py]: the conversion endpoints *)
Module Main.
Section Endpoints.
Context {engine : Engine} {host : Host}.

Inductive HttpResponse :=
| Ok (body : ConversionResponse)
| Error (status : Z) (body : ErrorResponse).

(** [len(base64_images) if base64_images else len(file_urls) if file_urls else 0]. *)
Definition pages_count_of (base64_images file_urls : option (list string)) : nat :=
  if negb (PDFConverterService.falsy_list base64_images)
  then length (default [] base64_images)
  else if negb (PDFConverterService.falsy_list file_urls)
  then length (default [] file_urls)
  else 0%nat.

(** The two [except] clauses every endpoint ends with. *)
Definition error_response (e : PyExc) : HttpResponse :=
  match e with
  | PDF2ImageException message error_code =>
      Error 400 {| err_success := false; err_message := message;
                   err_error_code := error_code |}
  | _ =>
      Error 500 {| err_success := false;
                   err_message := "服务器内部错误: " ++ str_exc e;
                   err_error_code := "INTERNAL_ERROR" |}
  end.

(** [convert_pdf_to_images_advanced], from the bytes read from the upload;
    [filename] is [file.filename]. *)
Definition convert_pdf_to_images_advanced (request : ConversionRequest)
    (filename : option string) (pdf_data : bytes) : World -> HttpResponse * World :=
  fun w =>
    let filename_prefix :=
      if truthy_str filename then Path.splitext_root (default "" filename) else "pdf" in
    match PDFConverterService.convert_pdf_to_images pdf_data request (Some filename_prefix) w with
    | (inr (base64_images, file_urls), w') =>
        (Ok {| success := true;
               message := "PDF转换成功";
               pages_count := pages_count_of base64_images file_urls;
               images := base64_images;
               file_urls := file_urls;
               format := fmt_str (fmt request);
               resp_storage_type := storage_type_str (storage_type request);
               resp_image_mode := image_mode_str (image_mode request) |}, w')
    | (inl e, w') => (error_response e, w')
    end.

End Endpoints.
End Main.

(** ** [main.py] and [models.py]: the routes that build their request *)
Module Routes.

(** The query parameters of [/convert], typed as the handler declares them. *)
Record ConvertQuery := {
  q_dpi : Z;
  q_first_page : option Z;
  q_last_page : option Z;
  q_fmt : string;
  q_grayscale : bool;
  q_transparent : bool;
  q_thread_count : Z;
  q_use_pdftocairo : bool;
  q_timeout : Z;
  q_size : option Z;
  q_storage_type : string;
  q_image_mode : string
}.

(** The body of [/convert-from-url]: [URLConversionRequest]. *)
Record URLConversionRequest := {
  pdf_url : string;
  u_dpi : Z;
  u_first_page : option Z;
  u_last_page : option Z;
  u_fmt : Fmt;
  u_grayscale : bool;
  u_transparent : bool;
  u_thread_count : Z;
  u_use_pdftocairo : bool;
  u_timeout : Z;
  u_size : option Z;
  u_jpegopt : option (gmap string PyVal);
  u_storage_type : StorageType;
  u_image_mode : ImageMode
}.

(** What the service reads when it is handed a [URLConversionRequest]: the
    attributes it shares with [ConversionRequest]. *)
Definition as_request (r : URLConversionRequest) : ConversionRequest := {|
  dpi := u_dpi r; first_page := u_first_page r; last_page := u_last_page r;
  fmt := u_fmt r; grayscale := u_grayscale r; transparent := u_transparent r;
  thread_count := u_thread_count r; use_pdftocairo := u_use_pdftocairo r;
  timeout := u_timeout r; size := u_size r; jpegopt := u_jpegopt r;
  storage_type := u_storage_type r; image_mode := u_image_mode r
|}.

(** The [Literal] fields accept their listed strings only. *)
Definition parse_fmt (s : string) : option Fmt :=
  if String.eqb s "jpeg" then Some jpeg
  else if String.eqb s "png" then Some png
  else if String.eqb s "ppm" then Some ppm
  else if String.eqb s "tiff" then Some tiff
  else None.

Definition parse_storage_type (s : string) : option StorageType :=
  if String.eqb s "base64" then Some st_base64
  else if String.eqb s "file" then Some st_file
  else if String.eqb s "both" then Some st_both
  else None.

Definition parse_image_mode (s : string) : option ImageMode :=
  if String.eqb s "base64" then Some im_base64
  else if String.eqb s "path" then Some im_path
  else None.

(** [Field(ge=lo, le=hi)] on a required and on an optional integer. *)
Definition within (lo hi z : Z) : bool := ((lo <=? z) && (z <=? hi))%Z.

Definition opt_within (lo : Z) (hi : option Z) (o : option Z) : bool :=
  match o with
  | None => true
  | Some z => (lo <=? z)%Z && match hi with Some h => (z <=? h)%Z | None => true end
  end.

(** The field constraints of [ConversionRequest]. *)
Definition fields_valid (q : ConvertQuery) : bool :=
  within 50 600 (q_dpi q)
  && opt_within 1 None (q_first_page q)
  && opt_within 1 None (q_last_page q)
  && within 1 8 (q_thread_count q)
  && within 30 1800 (q_timeout q)
  && opt_within 100 (Some 4000%Z) (q_size q).

(** [ConversionRequest(dpi=dpi, ..., image_mode=image_mode)] as [/convert]
    calls it; [jpegopt] keeps its default.  [None] when validation rejects
    the values. *)
Definition ConversionRequest_init (q : ConvertQuery) : option ConversionRequest :=
  if fields_valid q then
    f ← parse_fmt (q_fmt q);
    s ← parse_storage_type (q_storage_type q);
    m ← parse_image_mode (q_image_mode q);
    Some {| dpi := q_dpi q; first_page := q_first_page q; last_page := q_last_page q;
            fmt := f; grayscale := q_grayscale q; transparent := q_transparent q;
            thread_count := q_thread_count q; use_pdftocairo := q_use_pdftocairo q;
            timeout := q_timeout q; size := q_size q; jpegopt := None;
            storage_type := s; image_mode := m |}
  else None.

(** What the web framework contributes: the text of the [ValidationError]
    raised for a rejected query, and [Path(urlparse(url).path).stem]. *)
Class Framework := {
  validation_error_text : ConvertQuery -> string;
  url_path_stem : string -> string
}.

Section Handlers.
Context {engine : Engine} {host : Host} {framework : Framework}.

(** [validate_file]: the status and detail of the [HTTPException] raised
    for a rejected upload name. *)
Definition validate_file (filename : string) : Z * string + string :=
  if negb (endswith (lower filename) ".pdf")
  then inl (400%Z, "只支持PDF文件格式")
  else inr filename.

(** The handler of [/convert], from the bytes read from the upload. *)
Definition convert_pdf_to_images (q : ConvertQuery) (filename : option string)
    (pdf_data : bytes) : World -> Main.HttpResponse * World :=
  fun w =>
    match ConversionRequest_init q with
    | None => (Main.error_response (OtherException (validation_error_text q)), w)
    | Some request =>
        let filename_prefix :=
          if truthy_str filename then Path.splitext_root (default "" filename) else "pdf" in
        match PDFConverterService.convert_pdf_to_images pdf_data request
                (Some filename_prefix) w with
        | (inr (base64_images, file_urls), w') =>
            (Main.Ok {| success := true;
                        message := "PDF转换成功";
                        pages_count := Main.pages_count_of base64_images file_urls;
                        images := base64_images;
                        file_urls := file_urls;
                        format := q_fmt q;
                        resp_storage_type := q_storage_type q;
                        resp_image_mode := q_image_mode q |}, w')
        | (inl e, w') => (Main.error_response e, w')
        end
    end.

(** The handler of [/convert-from-url]. *)
Definition convert_pdf_from_url (request : URLConversionRequest)
    : World -> Main.HttpResponse * World :=
  fun w =>
    match PDFConverterService.download_pdf_from_url (pdf_url request) (u_timeout request) with
    | inl e => (Main.error_response e, w)
    | inr pdf_data =>
        let stem := url_path_stem (pdf_url request) in
        let filename_prefix := if String.eqb stem "" then "url_pdf" else stem in
        match PDFConverterService.convert_pdf_to_images pdf_data (as_request request)
                (Some filename_prefix) w with
        | (inr (base64_images, file_urls), w') =>
            (Main.Ok {| success := true;
                        message := "PDF转换成功";
                        pages_count := Main.pages_count_of base64_images file_urls;
                        images := base64_images;
                        file_urls := file_urls;
                        format := fmt_str (u_fmt request);
                        resp_storage_type := storage_type_str (u_storage_type request);
                        resp_image_mode := image_mode_str (u_image_mode request) |}, w')
        | (inl e, w') => (Main.error_response e, w')
        end
    end.

End Handlers.
End Routes.

(** ** Vocabulary of the statements *)

(** The keyword arguments [Image.save] gets for a requested format, as the
    in-memory channel computes them. *)
Definition encode_kwargs (fmt : string) (jpegopt : option (gmap string PyVal))
    : gmap string PyVal :=
  let save_format := upper fmt in
  let save_format := if String.eqb save_format "PPM" then "PNG" else save_format in
  let save_kwargs : gmap string PyVal := {[ "format" := VStr save_format ]} in
  if String.eqb fmt "jpeg" && PDFConverterService.truthy_dict jpegopt
  then default ∅ jpegopt ∪ save_kwargs
  else save_kwargs.

(** The file name [generate_filename] produces for a page when the clock and
    random streams stand at [tick]. *)
Definition filename_at `{Host} (tick page_index : nat) (fmt : string)
    (prefix : option string) : string :=
  match PDFConverterService.generate_filename page_index fmt prefix
          {| fs_dirs := ∅; fs_files := ∅; ticks := tick |} with
  | (inr filename, _) => filename
  | (inl _, _) => ""
  end.


(** A world that lost no directory and no file of another, and whose clock
    and random streams did not go back. *)
Definition grows (w w' : World) : Prop :=
  fs_dirs w ⊆ fs_dirs w' /\ dom (fs_files w) ⊆ dom (fs_files w') /\ (ticks w <= ticks w')%nat.


(** The error codes the service can fail with. *)
Definition service_codes : list string :=
  ["POPPLER_NOT_INSTALLED"; "PDF_CORRUPTED"; "CONVERSION_FAILED"].


(** ** A small concrete engine and host, to run the service on

    A document is the header [%PDF-] followed by one byte per page; a
    document whose first page byte is [!] makes the engine fail, the
    following byte choosing the failure.  Like the real engine, a first
    page beyond the last one renders nothing. *)
Module Fixture.

Definition pages_of (data : bytes) : list bytes := map (fun c => [c]) (skipn 5 data).

Definition engine_failure (data : bytes) : option PyExc :=
  match skipn 5 data with
  | "!"%byte :: "I"%byte :: _ => Some (PDFInfoNotInstalledError "Unable to get page count. Is poppler installed and in PATH?")
  | "!"%byte :: "C"%byte :: _ => Some (PDFPageCountError "Unable to get page count.")
  | "!"%byte :: "S"%byte :: _ => Some (PDFSyntaxError "Syntax Error: Couldn't read xref table")
  | "!"%byte :: "T"%byte :: _ => Some (PDFPopplerTimeoutError "Run poppler timeout.")
  | "!"%byte :: _ => Some (OtherException "Image file is truncated")
  | _ => None
  end.

Definition render (params : ConvertParams) : PyExc + list bytes :=
  match engine_failure (cp_pdf_file params) with
  | Some e => inl e
  | None =>
      let pages := pages_of (cp_pdf_file params) in
      let page_count := Z.of_nat (length pages) in
      let first := match cp_first_page params with
                   | Some f => if (f <? 1)%Z then 1%Z else f
                   | None => 1%Z
                   end in
      let last := match cp_last_page params with
                  | Some l => if (page_count <? l)%Z then page_count else l
                  | None => page_count
                  end in
      if (last <? first)%Z then inr []
      else inr (firstn (Z.to_nat (last - first + 1)) (skipn (Z.to_nat (first - 1)) pages))
  end.

Definition inspect (data : bytes) (strict : bool) : PyExc + gmap string PyVal :=
  match engine_failure data with
  | Some e => inl e
  | None =>
      inr (<["Pages" := VInt (Z.of_nat (length (pages_of data)))]>
           (<["Title" := VStr "Quarterly report"]>
           (<["Producer" := VStr "pdfTeX-1.40"]> ∅)))
  end.

(** The encoder writes the format name, a colon and the raster. *)
Definition save (img : bytes) (kwargs : gmap string PyVal) : PyExc + bytes :=
  match kwargs !! "format" with
  | Some (VStr f) => inr (list_byte_of_string (f ++ ":") ++ img)%list
  | _ => inl (OtherException "unknown file extension")
  end.

#[export] Instance engine : Engine := {|
  Image := bytes;
  convert_from_bytes := render;
  pdfinfo_from_bytes := inspect;
  Image_save := save
|}.

Definition get (url : string) (timeout : Z) : PyExc + Response :=
  if String.eqb url "http://files.example/slow" then
    inl (TimeoutException "timed out")
  else if String.eqb url "http://files.example/missing" then
    inr {| status_code := 404; headers := ∅; content := b "Not Found" |}
  else if String.eqb url "http://files.example/NOTES.PDF" then
    inr {| status_code := 200;
           headers := {[ "content-type" := "text/html" ]};
           content := b "<html>hello</html>" |}
  else if String.eqb url "http://files.example/page" then
    inr {| status_code := 200;
           headers := {[ "content-type" := "text/html" ]};
           content := b "<html>hello</html>" |}
  else
    inr {| status_code := 200;
           headers := {[ "content-type" := "Application/PDF" ]};
           content := b "%PDF-ab" |}.

#[export] Instance host : Host := {|
  config := Config.defaults;
  os_fault := fun _ => None;
  strftime_now := fun _ => "20240101_120000";
  uuid4 := fun n => "3f2a9c1e-7b64-4d0a-9e55-0c1d2e3f4a5b";
  httpx_get := get
|}.

(** A host that accepts eight bytes at most. *)
Definition small_host : Host := {|
  config := {| OUTPUT_STORAGE_TYPE := "file";
               OUTPUT_DIR := "/tmp/pdf2image_output";
               OUTPUT_BASE_URL := "http://localhost:8000/files";
               MAX_FILE_SIZE := 8;
               POPPLER_PATH := None |};
  os_fault := fun _ => None;
  strftime_now := fun _ => "20240101_120000";
  uuid4 := fun n => "3f2a9c1e-7b64-4d0a-9e55-0c1d2e3f4a5b";
  httpx_get := get
|}.

Definition world0 : World := {| fs_dirs := ∅; fs_files := ∅; ticks := 0 |}.

Definition request0 : ConversionRequest := {|
  dpi := 200; first_page := None; last_page := None; fmt := png;
  grayscale := false; transparent := false; thread_count := 1;
  use_pdftocairo := false; timeout := 600; size := None; jpegopt := None;
  storage_type := st_base64; image_mode := im_base64
|}.

Definition with_policy (r : ConversionRequest) (f : Fmt) (s : StorageType)
    (m : ImageMode) : ConversionRequest := {|
  dpi := dpi r; first_page := first_page r; last_page := last_page r; fmt := f;
  grayscale := grayscale r; transparent := transparent r;
  thread_count := thread_count r; use_pdftocairo := use_pdftocairo r;
  timeout := timeout r; size := size r; jpegopt := jpegopt r;
  storage_type := s; image_mode := m
|}.

Definition from_page (r : ConversionRequest) (first : Z) : ConversionRequest := {|
  dpi := dpi r; first_page := Some first; last_page := last_page r; fmt := fmt r;
  grayscale := grayscale r; transparent := transparent r;
  thread_count := thread_count r; use_pdftocairo := use_pdftocairo r;
  timeout := timeout r; size := size r; jpegopt := jpegopt r;
  storage_type := storage_type r; image_mode := image_mode r
|}.

(** A host whose output directory cannot be made, one whose disk is full
    for png files, and one without network. *)
Definition readonly_host : Host := {|
  config := Config.defaults;
  os_fault := fun path =>
    if String.eqb path "/tmp/pdf2image_output"
    then Some "[Errno 13] Permission denied: '/tmp/pdf2image_output'"
    else None;
  strftime_now := fun _ => "20240101_120000";
  uuid4 := fun n => "3f2a9c1e-7b64-4d0a-9e55-0c1d2e3f4a5b";
  httpx_get := get
|}.

Definition full_host : Host := {|
  config := Config.defaults;
  os_fault := fun path =>
    if endswith path ".png" then Some "[Errno 28] No space left on device" else None;
  strftime_now := fun _ => "20240101_120000";
  uuid4 := fun n => "3f2a9c1e-7b64-4d0a-9e55-0c1d2e3f4a5b";
  httpx_get := get
|}.

Definition offline_host : Host := {|
  config := Config.defaults;
  os_fault := fun _ => None;
  strftime_now := fun _ => "20240101_120000";
  uuid4 := fun n => "3f2a9c1e-7b64-4d0a-9e55-0c1d2e3f4a5b";
  httpx_get := fun _ _ => inl (OtherException "All connection attempts failed")
|}.

#[export] Instance framework : Routes.Framework := {|
  Routes.validation_error_text := fun _ => "1 validation error for ConversionRequest";
  Routes.url_path_stem := fun _ => "report"
|}.

(** The query [/convert] gets when only the file is sent. *)
Definition query0 : Routes.ConvertQuery := {|
  Routes.q_dpi := 200; Routes.q_first_page := None; Routes.q_last_page := None;
  Routes.q_fmt := "png"; Routes.q_grayscale := false; Routes.q_transparent := false;
  Routes.q_thread_count := 1; Routes.q_use_pdftocairo := false;
  Routes.q_timeout := 600; Routes.q_size := None;
  Routes.q_storage_type := "file"; Routes.q_image_mode := "path"
|}.

End Fixture.

(** * Properties *)

(** ** The built-ins on examples *)

Example b64_hello : b64encode (b "hello") = "aGVsbG8=".
Proof. vm_compute. reflexivity. Qed.
Example b64_hello_back : b64decode "aGVsbG8=" = Some (b "hello").
Proof. vm_compute. reflexivity. Qed.
Example b64_foobar : b64encode (b "foobar") = "Zm9vYmFy" /\ b64encode (b "fo") = "Zm8=" /\ b64encode (b "f") = "Zg==".
Proof. vm_compute. auto. Qed.
Example with_suffix_ppm :
  Path.with_suffix "/tmp/out/a.b_page_1_20240101_120000_deadbeef.ppm" ".png"
  = inr "/tmp/out/a.b_page_1_20240101_120000_deadbeef.png".
Proof. vm_compute. reflexivity. Qed.
Example with_suffix_hidden : Path.with_suffix "d/.bashrc" ".png" = inr "d/.bashrc.png".
Proof. vm_compute. reflexivity. Qed.
Example with_suffix_trailing_dot : Path.with_suffix "d/x." ".png" = inr "d/x..png".
Proof. vm_compute. reflexivity. Qed.
Example parent_ex :
  Path.parent "/tmp/out/p.png" = "/tmp/out" /\ Path.parent "p.png" = ".".
Proof. vm_compute. auto. Qed.
Example splitext_ex :
  Path.splitext_root "report.v2.pdf" = "report.v2" /\ Path.splitext_root ".pdf" = ".pdf"
  /\ Path.splitext_root "a/b.c/d" = "a/b.c/d".
Proof. vm_compute. auto. Qed.


(** ** Prefix tests *)

Lemma list_startswith_firstn {A} (eqb : A -> A -> bool) (l p : list A) :
  (forall x y, eqb x y = true <-> x = y) ->
  list_startswith eqb l p = true <-> firstn (length p) l = p.
Proof.
  intros Heqb. revert l. induction p as [|x p IH]; intros l; simpl.
  - split; auto.
  - destruct l as [|y l]; simpl.
    + split; discriminate.
    + rewrite andb_true_iff, IH, Heqb. split.
      * intros [-> ->]. reflexivity.
      * intros [= -> Hp]. rewrite Hp. auto.
Qed.

Lemma byte_eqb_eq (x y : byte) : Byte.eqb x y = true <-> x = y.
Proof.
  split; [apply Byte.byte_dec_bl | apply Byte.byte_dec_lb].
Qed.

Lemma bytes_startswith_firstn (data p : bytes) :
  bytes_startswith data p = true <-> firstn (length p) data = p.
Proof. apply list_startswith_firstn, byte_eqb_eq. Qed.

(** ** Base64 round trip *)

Ltac Zify.zify_post_hook ::= Z.to_euclidean_division_equations.

Lemma octet0_sextets x y : (x < 256)%N -> (y < 256)%N ->
  octet0 (sextet0 x) (sextet1 x y) = x.
Proof. unfold octet0, sextet0, sextet1. intros. lia. Qed.

Lemma octet1_sextets x y z : (x < 256)%N -> (y < 256)%N -> (z < 256)%N ->
  octet1 (sextet1 x y) (sextet2 y z) = y.
Proof. unfold octet1, sextet1, sextet2. intros. lia. Qed.

Lemma octet2_sextets y z : (y < 256)%N -> (z < 256)%N ->
  octet2 (sextet2 y z) (sextet3 z) = z.
Proof. unfold octet2, sextet2, sextet3. intros. lia. Qed.

Lemma sextets_lt x y : (x < 256)%N -> (y < 256)%N ->
  (sextet0 x < 64 /\ sextet1 x y < 64 /\ sextet2 x y < 64 /\ sextet3 x < 64)%N.
Proof. unfold sextet0, sextet1, sextet2, sextet3. intros. lia. Qed.

Lemma to_N_lt (x : byte) : (Byte.to_N x < 256)%N.
Proof. pose proof (Byte.to_N_bounded x). lia. Qed.

Ltac decide_bounds :=
  repeat match goal with
         | |- context [N.ltb ?a ?b] => destruct (N.ltb_spec a b); try lia
         | |- context [N.leb ?a ?b] => destruct (N.leb_spec a b); try lia
         | |- context [N.eqb ?a ?b] => destruct (N.eqb_spec a b); try lia
         end.

Lemma code_enc_char n : (n < 64)%N ->
  N_of_ascii (enc_char n) =
  (if n <? 26 then 65 + n else if n <? 52 then 71 + n
   else if n <? 62 then n - 4 else if n =? 62 then 43 else 47)%N.
Proof.
  intros Hn. unfold enc_char. decide_bounds; try reflexivity;
    rewrite N_ascii_embedding by lia; lia.
Qed.

Lemma dec_enc_char n : (n < 64)%N -> dec_char (enc_char n) = Some n.
Proof.
  intros Hn. unfold dec_char. rewrite (code_enc_char n Hn).
  decide_bounds; simpl; f_equal; lia.
Qed.

Lemma enc_char_not_pad n : (n < 64)%N -> Ascii.eqb (enc_char n) "=" = false.
Proof.
  intros Hn. apply Ascii.eqb_neq. intros Heq.
  apply (f_equal N_of_ascii) in Heq. rewrite (code_enc_char n Hn) in Heq.
  change (N_of_ascii "=") with 61%N in Heq. revert Heq. decide_bounds.
Qed.

Lemma list_ind3 {A} (P : list A -> Prop) :
  P [] -> (forall x, P [x]) -> (forall x y, P [x; y]) ->
  (forall x y z l, P l -> P (x :: y :: z :: l)) ->
  forall l, P l.
Proof.
  intros H0 H1 H2 H3 l.
  assert (P l /\ (forall x, P (x :: l)) /\ (forall x y, P (x :: y :: l))) as [? _].
  { induction l as [|a l (IH0 & IH1 & IH2)]; repeat split; auto. }
  assumption.
Qed.

Lemma decode_encode_chars (data : bytes) :
  decode_chars (encode_chars data) = Some data.
Proof.
  induction data as [|x|x y|x y z rest IH] using list_ind3.
  - reflexivity.
  - pose proof (to_N_lt x) as Hx.
    destruct (sextets_lt (Byte.to_N x) 0 Hx) as (H0 & H1 & _); [lia|].
    cbn [encode_chars decode_chars].
    rewrite (dec_enc_char _ H0), (dec_enc_char _ H1). cbn.
    rewrite octet0_sextets by (auto; lia). rewrite Byte.of_to_N. reflexivity.
  - pose proof (to_N_lt x) as Hx. pose proof (to_N_lt y) as Hy.
    destruct (sextets_lt (Byte.to_N x) (Byte.to_N y) Hx Hy) as (H0 & H1 & _).
    destruct (sextets_lt (Byte.to_N y) 0 Hy) as (_ & _ & H2 & _); [lia|].
    cbn [encode_chars decode_chars].
    rewrite (dec_enc_char _ H0), (dec_enc_char _ H1). cbn [mbind option_bind].
    change (Ascii.eqb "=" "=") with true. cbn match.
    rewrite (enc_char_not_pad _ H2), (dec_enc_char _ H2). cbn.
    rewrite octet0_sextets, octet1_sextets by (auto; lia).
    rewrite !Byte.of_to_N. reflexivity.
  - pose proof (to_N_lt x) as Hx. pose proof (to_N_lt y) as Hy.
    pose proof (to_N_lt z) as Hz.
    destruct (sextets_lt (Byte.to_N x) (Byte.to_N y) Hx Hy) as (H0 & H1 & _).
    destruct (sextets_lt (Byte.to_N y) (Byte.to_N z) Hy Hz) as (_ & _ & H2 & _).
    destruct (sextets_lt (Byte.to_N z) 0 Hz) as (_ & _ & _ & H3); [lia|].
    cbn [encode_chars decode_chars].
    rewrite (dec_enc_char _ H0), (dec_enc_char _ H1). cbn [mbind option_bind].
    rewrite (enc_char_not_pad _ H3).
    rewrite (dec_enc_char _ H2), (dec_enc_char _ H3). cbn [mbind option_bind].
    assert (bytes_of_octets
              [octet0 (sextet0 (Byte.to_N x)) (sextet1 (Byte.to_N x) (Byte.to_N y));
               octet1 (sextet1 (Byte.to_N x) (Byte.to_N y)) (sextet2 (Byte.to_N y) (Byte.to_N z));
               octet2 (sextet2 (Byte.to_N y) (Byte.to_N z)) (sextet3 (Byte.to_N z))]
            = Some [x; y; z]) as ->.
    { rewrite octet0_sextets, octet1_sextets, octet2_sextets by auto.
      cbn. rewrite !Byte.of_to_N. reflexivity. }
    rewrite IH. destruct (encode_chars rest); reflexivity.
Qed.

Lemma b64decode_b64encode (data : bytes) : b64decode (b64encode data) = Some data.
Proof.
  unfold b64decode, b64encode.
  rewrite list_ascii_of_string_of_list_ascii. apply decode_encode_chars.
Qed.

(** ** The service, for any engine and host *)
Section Laws.
Context {engine : Engine} {host : Host}.
Import PDFConverterService Main.

(** Running the monad's combinators. *)
Lemma bind_lift_inl {A B} (e : PyExc) (k : A -> M B) (w : World) :
  bind (lift (inl e)) k w = (inl e, w).
Proof. reflexivity. Qed.

Lemma bind_lift_inr {A B} (x : A) (k : A -> M B) (w : World) :
  bind (lift (inr x)) k w = k x w.
Proof. reflexivity. Qed.

Lemma in_storage_base64 (s : StorageType) :
  in_storage s [st_base64; st_both] = match s with st_file => false | _ => true end.
Proof. destruct s; reflexivity. Qed.

Lemma in_storage_file (s : StorageType) :
  in_storage s [st_file; st_both] = match s with st_base64 => false | _ => true end.
Proof. destruct s; reflexivity. Qed.

(** A failing validation leaves the [try] body at once, the world untouched. *)
Lemma convert_body_invalid pdf_data request filename_prefix w e :
  validate_pdf_file pdf_data = inl e ->
  convert_body pdf_data request filename_prefix w = (inl e, w).
Proof. intros Hv. unfold convert_body. rewrite Hv. apply bind_lift_inl. Qed.

(** An engine failure leaves the [try] body as it is raised. *)
Lemma convert_body_engine_failure pdf_data request filename_prefix w e :
  validate_pdf_file pdf_data = inr tt ->
  convert_from_bytes (convert_params_of pdf_data request) = inl e ->
  convert_body pdf_data request filename_prefix w = (inl e, w).
Proof.
  intros Hv He. unfold convert_body. rewrite Hv, bind_lift_inr, He.
  apply bind_lift_inl.
Qed.

(** What the orchestrator turns a failed validation into: the blanket
    [except Exception] clause catches the service's own exception. *)
Lemma convert_rewraps_validation_failure pdf_data request filename_prefix w e :
  validate_pdf_file pdf_data = inl e ->
  convert_pdf_to_images pdf_data request filename_prefix w
  = (inl (convert_handler e), w).
Proof.
  intros Hv. unfold convert_pdf_to_images, try_except.
  rewrite (convert_body_invalid _ _ _ _ _ Hv). reflexivity.
Qed.

Lemma validate_fails_with_domain_error pdf_data e :
  validate_pdf_file pdf_data = inl e ->
  exists message code, e = PDF2ImageException message code /\
    (code = "EMPTY_FILE" \/ code = "FILE_TOO_LARGE" \/ code = "INVALID_PDF_FORMAT").
Proof.
  unfold validate_pdf_file.
  repeat match goal with |- context [if ?c then _ else _] => destruct c end;
    intros [= <-]; eauto 6.
Qed.

(** C4: validation fails with EMPTY_FILE on empty input, before any other
    check; otherwise with FILE_TOO_LARGE when the length exceeds the
    configured maximum, the message carrying the limit in MiB, whatever the
    header; otherwise with INVALID_PDF_FORMAT when the first five bytes are
    not [%PDF-]; otherwise it succeeds.  It is a pure function. *)
Theorem validate_pdf_file_cases (pdf_data : bytes) :
  (pdf_data = [] ->
     validate_pdf_file pdf_data = inl (PDF2ImageException "文件为空" "EMPTY_FILE")) /\
  (pdf_data <> [] -> (MAX_FILE_SIZE config < Z.of_nat (length pdf_data))%Z ->
     validate_pdf_file pdf_data
     = inl (PDF2ImageException
              ("文件大小超过限制 (" ++ str_int (MAX_FILE_SIZE config / (1024 * 1024)) ++ "MB)")
              "FILE_TOO_LARGE")) /\
  (pdf_data <> [] -> (Z.of_nat (length pdf_data) <= MAX_FILE_SIZE config)%Z ->
     firstn 5 pdf_data <> b "%PDF-" ->
     validate_pdf_file pdf_data
     = inl (PDF2ImageException "不是有效的PDF文件" "INVALID_PDF_FORMAT")) /\
  (pdf_data <> [] -> (Z.of_nat (length pdf_data) <= MAX_FILE_SIZE config)%Z ->
     firstn 5 pdf_data = b "%PDF-" ->
     validate_pdf_file pdf_data = inr tt).
Proof.
  unfold validate_pdf_file.
  pose proof (bytes_startswith_firstn pdf_data (b "%PDF-")) as Hp.
  change (length (b "%PDF-")) with 5%nat in Hp.
  repeat split.
  - intros ->. reflexivity.
  - intros Hne Hlarge. destruct pdf_data as [|x l]; [congruence|].
    cbn [length Nat.eqb]. destruct (Z.ltb_spec (MAX_FILE_SIZE config)
      (Z.of_nat (S (length l)))) as [_|Hge]; [reflexivity|].
    cbn [length] in Hlarge. lia.
  - intros Hne Hsmall Hhead. destruct pdf_data as [|x l]; [congruence|].
    cbn [length Nat.eqb]. destruct (Z.ltb_spec (MAX_FILE_SIZE config)
      (Z.of_nat (S (length l)))) as [Hlt|_]; [cbn [length] in Hsmall; lia|].
    destruct (bytes_startswith (x :: l) (b "%PDF-")); [|reflexivity].
    exfalso. apply Hhead, Hp. reflexivity.
  - intros Hne Hsmall Hhead. destruct pdf_data as [|x l]; [congruence|].
    cbn [length Nat.eqb]. destruct (Z.ltb_spec (MAX_FILE_SIZE config)
      (Z.of_nat (S (length l)))) as [Hlt|_]; [cbn [length] in Hsmall; lia|].
    apply Hp in Hhead. rewrite Hhead. reflexivity.
Qed.

(** C1 (as the code behaves): on the empty byte sequence the orchestrator
    does not fail with EMPTY_FILE; the validation error is caught by its own
    blanket handler and re-raised as CONVERSION_FAILED with a prefixed
    message. *)
Theorem convert_empty_file_is_conversion_failed request filename_prefix w :
  convert_pdf_to_images [] request filename_prefix w
  = (inl (PDF2ImageException "PDF转换失败: 文件为空" "CONVERSION_FAILED"), w).
Proof.
  rewrite (convert_rewraps_validation_failure [] request filename_prefix w
             (PDF2ImageException "文件为空" "EMPTY_FILE")); reflexivity.
Qed.

(** C6: an engine failure during conversion surfaces as exactly one domain
    error: tool not installed as POPPLER_NOT_INSTALLED, a page-count or a
    syntax error as PDF_CORRUPTED, a rendering timeout as CONVERSION_FAILED
    with the timeout message, anything else as CONVERSION_FAILED around the
    raw message. *)
Theorem convert_engine_failure_mapping pdf_data request filename_prefix w e :
  validate_pdf_file pdf_data = inr tt ->
  convert_from_bytes (convert_params_of pdf_data request) = inl e ->
  exists message code,
    convert_pdf_to_images pdf_data request filename_prefix w
    = (inl (PDF2ImageException message code), w) /\
    match e with
    | PDFInfoNotInstalledError _ => code = "POPPLER_NOT_INSTALLED"
    | PDFPageCountError _ => code = "PDF_CORRUPTED"
    | PDFSyntaxError _ => code = "PDF_CORRUPTED"
    | PDFPopplerTimeoutError _ =>
        code = "CONVERSION_FAILED" /\
        message = "PDF转换超时，请尝试减少页面数量或增加超时时间"
    | _ => code = "CONVERSION_FAILED" /\ message = "PDF转换失败: " ++ str_exc e
    end.
Proof.
  intros Hv He. unfold convert_pdf_to_images, try_except.
  rewrite (convert_body_engine_failure _ _ _ _ _ Hv He).
  destruct e; do 2 eexists; (split; [reflexivity|]); auto.
Qed.

(** C10: with [storage_type = base64] a conversion, failed or not, leaves
    the world as it found it: no directory made, no file written. *)
Theorem convert_base64_leaves_world pdf_data request filename_prefix w :
  storage_type request = st_base64 ->
  snd (convert_pdf_to_images pdf_data request filename_prefix w) = w.
Proof.
  intros Hs. unfold convert_pdf_to_images, try_except, convert_body.
  destruct (validate_pdf_file pdf_data) as [e|[]]; [reflexivity|].
  rewrite bind_lift_inr.
  destruct (convert_from_bytes (convert_params_of pdf_data request)) as [e|images];
    [reflexivity|].
  rewrite bind_lift_inr, Hs. cbn [in_storage existsb storage_type_str].
  change (String.eqb "base64" "base64") with true. cbn [orb].
  destruct (encode_pages request images []) as [e|payloads]; reflexivity.
Qed.

(** The first loop in base64 mode: one payload per page, in page order,
    each the base64 text of that page's encoding. *)
Lemma encode_pages_base64 request images acc out :
  image_mode request = im_base64 ->
  encode_pages request images acc = inr (Some out) ->
  exists datas,
    Forall2 (fun img data =>
               Image_save img (encode_kwargs (fmt_str (fmt request)) (jpegopt request))
               = inr data) images datas /\
    out = (acc ++ map b64encode datas)%list.
Proof.
  intros Hm. revert acc. induction images as [|img rest IH]; intros acc; cbn [encode_pages].
  - intros [= <-]. exists []. split; [constructor|]. cbn. rewrite app_nil_r. reflexivity.
  - rewrite Hm. fold (encode_kwargs (fmt_str (fmt request)) (jpegopt request)).
    destruct (Image_save img _) as [e|data] eqn:Hsave; [discriminate|].
    intros Hrest. destruct (IH _ Hrest) as (datas & Hall & ->).
    exists (data :: datas). split; [constructor; assumption|].
    cbn [map]. rewrite <- app_assoc. reflexivity.
Qed.

(** The first loop in path mode: nothing for an empty page list, [None] as
    soon as there is a page. *)
Lemma encode_pages_path request images acc :
  image_mode request = im_path ->
  encode_pages request images acc
  = inr (match images with [] => Some acc | _ :: _ => None end).
Proof. intros Hm. destruct images; cbn [encode_pages]; rewrite ?Hm; reflexivity. Qed.

(** A page the file channel persists: the file at the path it returns holds
    the page's encoding under the same keyword arguments. *)
Lemma save_image_to_file_persisted image filepath fmt jpegopt w path' w' :
  save_image_to_file image filepath fmt jpegopt w = (inr path', w') ->
  exists data,
    Image_save image (encode_kwargs fmt jpegopt) = inr data /\
    fs_files w' !! path' = Some data.
Proof.
  unfold save_image_to_file, try_except, bind, mkdir, write_file, lift, ret, raise,
    encode_kwargs.
  destruct (os_fault (Path.parent filepath)); [discriminate|].
  destruct (String.eqb (upper fmt) "PPM").
  - destruct (Path.with_suffix filepath ".png") as [e|p]; [discriminate|].
    cbn [fst snd].
    destruct (Image_save image _) as [e|data]; [discriminate|].
    destruct (os_fault p); [discriminate|].
    intros [= <- <-]. exists data. split; [reflexivity|].
    cbn [fs_files]. apply lookup_insert_eq.
  - cbn [fst snd].
    destruct (Image_save image _) as [e|data]; [discriminate|].
    destruct (os_fault filepath); [discriminate|].
    intros [= <- <-]. exists data. split; [reflexivity|].
    cbn [fs_files]. apply lookup_insert_eq.
Qed.

(** C8: for every page of a request, the base64 payload of the in-memory
    channel decodes to the very bytes the file channel persists for that
    page under the same format and encoder options. *)
Theorem payload_decodes_to_persisted_bytes
    request images payloads (i : nat) img filepath w path' w' :
  image_mode request = im_base64 ->
  encode_pages request images [] = inr (Some payloads) ->
  images !! i = Some img ->
  save_image_to_file img filepath (fmt_str (fmt request)) (jpegopt request) w
  = (inr path', w') ->
  exists payload data,
    payloads !! i = Some payload /\
    b64decode payload = Some data /\
    fs_files w' !! path' = Some data.
Proof.
  intros Hm Henc Hi Hsave.
  destruct (encode_pages_base64 _ _ _ _ Hm Henc) as (datas & Hall & ->).
  destruct (save_image_to_file_persisted _ _ _ _ _ _ _ Hsave) as (data & Hdata & Hfile).
  destruct (Forall2_lookup_l _ _ _ _ _ Hall Hi) as (data' & Hi' & Hdata').
  rewrite Hdata in Hdata'. injection Hdata' as <-.
  exists (b64encode data), data. repeat split.
  - cbn [app]. rewrite list_lookup_fmap, Hi'. reflexivity.
  - apply b64decode_b64encode.
  - exact Hfile.
Qed.

(** C9: whenever validation and inspection succeed, the extractor returns a
    dictionary with exactly the eight fixed keys, each holding what the
    engine reported under the corresponding key, and [None] where the
    engine reported nothing. *)
Theorem get_pdf_info_fixed_fields pdf_data info :
  validate_pdf_file pdf_data = inr tt ->
  pdfinfo_from_bytes pdf_data true = inr info ->
  exists result,
    get_pdf_info pdf_data = inr result /\
    dom result = list_to_set (map fst info_fields) /\
    Forall (fun f => result !! fst f = Some (dict_get info (snd f))) info_fields /\
    (forall f, In f info_fields -> info !! snd f = None -> result !! fst f = Some VNone).
Proof.
  intros Hv Hinfo. unfold get_pdf_info. rewrite Hv, Hinfo.
  eexists. split; [reflexivity|].
  match goal with |- dom ?r = _ /\ _ => set (result := r) end.
  assert (Hfields : Forall (fun f => result !! fst f = Some (dict_get info (snd f)))
                           info_fields).
  { unfold info_fields, result. repeat constructor; cbn [fst snd]; by simplify_map_eq. }
  split; [|split; [exact Hfields|]].
  - unfold result. rewrite !dom_insert_L, dom_empty_L. cbn. set_solver.
  - intros f Hin Hnone. rewrite Forall_forall in Hfields.
    rewrite (Hfields f) by (apply list_elem_of_In; exact Hin).
    unfold dict_get. rewrite Hnone. reflexivity.
Qed.

(** C7, with the comparisons as the code makes them: a timeout and a
    non-2xx status fail with CONVERSION_FAILED, the latter naming the
    status code; a 2xx response fails with CONVERSION_FAILED ("not a valid
    PDF") exactly when the content type in lower case does not contain
    [application/pdf], the URL in lower case does not end in [.pdf] and the
    body does not start with [%PDF-]; otherwise the body is returned. *)
Theorem download_pdf_from_url_cases url timeout :
  (forall msg, httpx_get url timeout = inl (TimeoutException msg) ->
     download_pdf_from_url url timeout
     = inl (PDF2ImageException "下载PDF文件超时" "CONVERSION_FAILED")) /\
  (forall response, httpx_get url timeout = inr response ->
     ~ (200 <= status_code response <= 299)%Z ->
     download_pdf_from_url url timeout
     = inl (PDF2ImageException
              ("下载PDF文件失败: HTTP " ++ str_int (status_code response))
              "CONVERSION_FAILED")) /\
  (forall response, httpx_get url timeout = inr response ->
     (200 <= status_code response <= 299)%Z ->
     let content_type := lower (default "" (headers response !! "content-type")) in
     let not_pdf :=
       negb (contains "application/pdf" content_type)
       && negb (endswith (lower url) ".pdf")
       && negb (bytes_startswith (content response) (b "%PDF-")) in
     download_pdf_from_url url timeout
     = if not_pdf
       then inl (PDF2ImageException "下载PDF文件失败: URL返回的不是有效的PDF文件"
                   "CONVERSION_FAILED")
       else inr (content response)).
Proof.
  unfold download_pdf_from_url, raise_for_status. repeat split.
  - intros msg ->. reflexivity.
  - intros response -> Hstatus.
    destruct (Z.leb_spec 200 (status_code response));
      destruct (Z.leb_spec (status_code response) 299); cbn [andb]; try reflexivity.
    lia.
  - intros response -> Hstatus.
    destruct (Z.leb_spec 200 (status_code response));
      destruct (Z.leb_spec (status_code response) 299); cbn [andb]; try lia.
    destruct (contains _ _), (endswith _ _), (bytes_startswith _ _); reflexivity.
Qed.

(** File names are always produced. *)
Lemma generate_filename_returns page_index fmt prefix w :
  exists filename w', generate_filename page_index fmt prefix w = (inr filename, w').
Proof. unfold generate_filename. destruct (truthy_str prefix); eauto. Qed.

(** The second loop adds one URL per page and, in path mode, one path per
    page; in base64 mode it leaves the payloads alone. *)
Lemma persist_pages_shape request filename_prefix output_dir images :
  forall i base64_images file_urls w r w',
    persist_pages request filename_prefix output_dir images i base64_images file_urls w
    = (inr r, w') ->
    length (snd r) = (length file_urls + length images)%nat /\
    match image_mode request with
    | im_base64 => fst r = base64_images
    | im_path =>
        forall l, base64_images = Some l ->
          exists l', fst r = Some l' /\ length l' = (length l + length images)%nat
    end.
Proof.
  induction images as [|img rest IH]; intros i base64_images file_urls w r w'.
  - cbn [persist_pages]. unfold ret. intros [= <- <-]. cbn [fst snd length].
    split; [lia|]. destruct (image_mode request); [reflexivity|].
    intros l ->. exists l. split; [reflexivity|lia].
  - cbn [persist_pages]. unfold bind at 1.
    destruct (generate_filename_returns i (fmt_str (fmt request)) filename_prefix w)
      as (filename & w1 & ->).
    unfold bind at 1.
    destruct (save_image_to_file img _ _ _ w1) as [[e|p] w2]; [discriminate|].
    unfold bind at 1.
    destruct (image_mode request) eqn:Hm.
    + unfold ret at 1. intros Hrest. apply IH in Hrest as [Hlen Hfst].
      rewrite Hlen, length_app. cbn [length]. split; [lia|exact Hfst].
    + destruct base64_images as [l0|]; cbn [append_payload].
      * unfold ret at 1. intros Hrest. apply IH in Hrest as [Hlen Hfst].
        rewrite Hlen, length_app. cbn [length]. split; [lia|].
        intros l [= <-]. destruct (Hfst _ eq_refl) as (l' & -> & Hl').
        exists l'. split; [reflexivity|]. rewrite Hl', length_app. cbn [length]. lia.
      * unfold raise at 1. discriminate.
Qed.

(** What a conversion returns under [storage_type = base64] and
    [image_mode = path]: no URL list, and no payload list unless the engine
    rendered no page at all, in which case the payload list is empty. *)
Lemma convert_base64_path pdf_data request filename_prefix w images :
  validate_pdf_file pdf_data = inr tt ->
  convert_from_bytes (convert_params_of pdf_data request) = inr images ->
  storage_type request = st_base64 ->
  image_mode request = im_path ->
  convert_pdf_to_images pdf_data request filename_prefix w
  = (inr (match images with [] => Some [] | _ :: _ => None end, None), w).
Proof.
  intros Hv Himg Hs Hm. unfold convert_pdf_to_images, try_except, convert_body.
  rewrite Hv, bind_lift_inr, Himg, bind_lift_inr, Hs.
  cbn [in_storage existsb storage_type_str].
  change (String.eqb "base64" "base64") with true. cbn [orb].
  rewrite (encode_pages_path _ _ _ Hm), bind_lift_inr.
  change (String.eqb "base64" "file") with false.
  change (String.eqb "base64" "both") with false. cbn [orb]. reflexivity.
Qed.

(** Under [storage_type = both] and [image_mode = base64] the payloads a
    conversion returns are those of the first loop; the second loop does
    not touch them. *)
Lemma convert_both_base64_payloads pdf_data request filename_prefix w images r w' :
  storage_type request = st_both ->
  image_mode request = im_base64 ->
  convert_from_bytes (convert_params_of pdf_data request) = inr images ->
  convert_pdf_to_images pdf_data request filename_prefix w = (inr r, w') ->
  encode_pages request images [] = inr (fst r).
Proof.
  intros Hs Hm Himg. unfold convert_pdf_to_images, try_except, convert_body.
  destruct (validate_pdf_file pdf_data) as [e|[]]; [discriminate|].
  rewrite bind_lift_inr, Himg, bind_lift_inr, in_storage_base64, in_storage_file, Hs, Hm.
  destruct (encode_pages request images []) as [e|o]; [discriminate|].
  rewrite bind_lift_inr. unfold bind at 1.
  destruct (ensure_output_dir w) as [[e|dir] w1]; [discriminate|].
  unfold bind at 1.
  destruct (persist_pages _ _ _ _ _ _ _ w1) as [[e|r'] w2] eqn:Hpp; [discriminate|].
  unfold ret. intros [= <- <-]. cbn [fst].
  apply persist_pages_shape in Hpp as [_ Hfst]. rewrite Hm in Hfst.
  rewrite Hfst. reflexivity.
Qed.

(** X20: outside that combination the response counts the rendered pages:
    a successful conversion of [N] rendered pages answers [pages_count = N],
    and each list it returns has [N] entries. *)
Lemma advanced_counts_pages request filename pdf_data w body w' images :
  (storage_type request, image_mode request) <> (st_base64, im_path) ->
  convert_from_bytes (convert_params_of pdf_data request) = inr images ->
  convert_pdf_to_images_advanced request filename pdf_data w = (Ok body, w') ->
  pages_count body = length images /\
  (forall l, Models.images body = Some l -> length l = length images) /\
  (forall l, Models.file_urls body = Some l -> length l = length images).
Proof.
  intros Hpolicy Himg. unfold convert_pdf_to_images_advanced.
  set (prefix := Some _).
  unfold convert_pdf_to_images, try_except, convert_body.
  destruct (validate_pdf_file pdf_data) as [e|[]].
  { rewrite bind_lift_inl. destruct (convert_handler e); discriminate. }
  rewrite bind_lift_inr, Himg, bind_lift_inr, in_storage_base64, in_storage_file.
  assert (Hstep : forall (o : option (list string)) w0 r w1,
            (image_mode request = im_base64 ->
               o = None \/ exists l, o = Some l /\ length l = length images) ->
            (image_mode request = im_path -> falsy_list o = true) ->
            bind ensure_output_dir
              (fun output_dir =>
                 bind (persist_pages request prefix output_dir images 0
                         (match image_mode request with
                          | im_path => if falsy_list o then Some [] else o
                          | im_base64 => o
                          end) [])
                      (fun r => ret (fst r, Some (snd r)))) w0 = (inr r, w1) ->
            pages_count_of (fst r) (snd r) = length images /\
            (forall l, fst r = Some l -> length l = length images) /\
            (forall l, snd r = Some l -> length l = length images)).
  { intros o w0 r w1 Hb64 Hpath. unfold bind at 1.
    destruct (ensure_output_dir w0) as [[e|dir] w2]; [discriminate|].
    unfold bind at 1.
    destruct (persist_pages _ _ _ _ _ _ _ w2) as [[e|r'] w3] eqn:Hpp; [discriminate|].
    unfold ret. intros [= <- <-]. cbn [fst snd].
    apply persist_pages_shape in Hpp as [Hlen Hfst]. cbn [length] in Hlen.
    destruct (image_mode request).
    - rewrite Hfst. destruct (Hb64 eq_refl) as [->|(l & -> & Hl)].
      + split; [|split; [discriminate|intros ? [= <-]; exact Hlen]].
        unfold pages_count_of. cbn. destruct (snd r'); cbn in *; lia.
      + split; [|split; [intros ? [= <-]; exact Hl|intros ? [= <-]; exact Hlen]].
        unfold pages_count_of. destruct l; cbn in *; [|lia].
        destruct (snd r'); cbn in *; lia.
    - rewrite (Hpath eq_refl) in Hfst. destruct (Hfst _ eq_refl) as (l' & -> & Hl').
      cbn [length] in Hl'.
      split; [|split; [intros ? [= <-]; exact Hl'|intros ? [= <-]; exact Hlen]].
      unfold pages_count_of. destruct l'; cbn in *; [|lia].
      destruct (snd r'); cbn in *; lia. }
  destruct (storage_type request) eqn:Hs, (image_mode request) eqn:Hm;
    try congruence.
  - (* base64, base64 *)
    destruct (encode_pages request images []) as [e|o] eqn:Henc.
    { rewrite bind_lift_inl. destruct (convert_handler e); discriminate. }
    rewrite bind_lift_inr. unfold ret.
    destruct o as [l|].
    + destruct (encode_pages_base64 _ _ _ _ Hm Henc) as (datas & Hall & ->).
      apply Forall2_length in Hall. cbn [app] in *.
      intros [= <- <-]. cbn [pages_count Models.images Models.file_urls].
      split; [|split; [intros ? [= <-]; rewrite length_map; lia|discriminate]].
      unfold pages_count_of. destruct datas; cbn in *; rewrite ?length_map; lia.
    + exfalso. clear -Henc Hm. revert Henc. generalize (@nil string).
      induction images as [|img rest IH]; intros acc; cbn [encode_pages];
        [discriminate|]. rewrite Hm. destruct (Image_save img _); [discriminate|].
      apply IH.
  - (* file, base64 *)
    unfold ret at 1. unfold bind at 1.
    destruct (bind ensure_output_dir _ w) as [[e|r] w1] eqn:Hrun.
    { destruct (convert_handler e); discriminate. }
    destruct r as [payloads urls].
    intros [= <- <-]. cbn [pages_count Models.images Models.file_urls].
    rewrite ?Hm in Hstep. unfold bind at 1 in Hrun.
    eapply (Hstep None w (payloads, urls) w1); [auto|discriminate|]. rewrite <- Hrun. reflexivity.
  - (* file, path *)
    unfold ret at 1. unfold bind at 1.
    destruct (bind ensure_output_dir _ w) as [[e|r] w1] eqn:Hrun.
    { destruct (convert_handler e); discriminate. }
    destruct r as [payloads urls].
    intros [= <- <-]. cbn [pages_count Models.images Models.file_urls].
    rewrite ?Hm in Hstep.
    eapply (Hstep None w (payloads, urls) w1); [discriminate|reflexivity|]. rewrite <- Hrun. reflexivity.
  - (* both, base64 *)
    destruct (encode_pages request images []) as [e|o] eqn:Henc.
    { rewrite bind_lift_inl. destruct (convert_handler e); discriminate. }
    rewrite bind_lift_inr.
    destruct (bind ensure_output_dir _ w) as [[e|r] w1] eqn:Hrun.
    { destruct (convert_handler e); discriminate. }
    destruct r as [payloads urls].
    intros [= <- <-]. cbn [pages_count Models.images Models.file_urls].
    rewrite ?Hm in Hstep.
    eapply (Hstep o w (payloads, urls) w1); [|discriminate|rewrite <- Hrun; reflexivity].
    intros _. destruct o as [l|]; [right|left; reflexivity].
    destruct (encode_pages_base64 _ _ _ _ Hm Henc) as (datas & Hall & ->).
    apply Forall2_length in Hall. eexists; split; [reflexivity|].
    cbn [app]. rewrite length_map. lia.
  - (* both, path *)
    rewrite (encode_pages_path _ _ _ Hm), bind_lift_inr.
    destruct (bind ensure_output_dir _ w) as [[e|r] w1] eqn:Hrun.
    { destruct (convert_handler e); discriminate. }
    destruct r as [payloads urls].
    intros [= <- <-]. cbn [pages_count Models.images Models.file_urls].
    rewrite ?Hm in Hstep.
    eapply (Hstep _ w (payloads, urls) w1); [discriminate| |rewrite <- Hrun; reflexivity].
    intros _. destruct images; reflexivity.
Qed.

End Laws.

(** ** Failure kinds, for any engine and host *)
Section Failures.
Context {engine : Engine} {host : Host}.
Import PDFConverterService Main.

Lemma convert_handler_code (e : PyExc) :
  exists message code,
    convert_handler e = PDF2ImageException message code /\ In code service_codes.
Proof. destruct e; do 2 eexists; (split; [reflexivity|]); cbn; auto. Qed.

Lemma get_pdf_info_handler_code (e : PyExc) :
  exists message code,
    get_pdf_info_handler e = PDF2ImageException message code /\ In code service_codes.
Proof. destruct e; do 2 eexists; (split; [reflexivity|]); cbn; auto. Qed.

Lemma convert_failure_is_handled pdf_data request filename_prefix w e w' :
  convert_pdf_to_images pdf_data request filename_prefix w = (inl e, w') ->
  exists e0, convert_body pdf_data request filename_prefix w = (inl e0, w') /\
             e = convert_handler e0.
Proof.
  unfold convert_pdf_to_images, try_except.
  destruct (convert_body pdf_data request filename_prefix w) as [[e0|r] w0].
  - unfold raise. intros [= <- <-]. eauto.
  - discriminate.
Qed.

(** X1: whatever makes a conversion fail (validation, engine, encoder or
    file system), the caller sees a [PDF2ImageException] whose code is
    POPPLER_NOT_INSTALLED, PDF_CORRUPTED or CONVERSION_FAILED. *)
Theorem convert_fails_with_service_code pdf_data request filename_prefix w e w' :
  convert_pdf_to_images pdf_data request filename_prefix w = (inl e, w') ->
  exists message code, e = PDF2ImageException message code /\ In code service_codes.
Proof.
  intros Hfail. destruct (convert_failure_is_handled _ _ _ _ _ _ Hfail) as (e0 & _ & ->).
  apply convert_handler_code.
Qed.

(** X2: the advanced route never answers 500: its answer is a success body
    or a 400 error whose code is one of the three service codes and whose
    message is the exception's. *)
Theorem advanced_route_never_internal_error request filename pdf_data w :
  match fst (convert_pdf_to_images_advanced request filename pdf_data w) with
  | Ok body => success body = true
  | Error status body =>
      status = 400%Z /\ err_success body = false /\
      In (err_error_code body) service_codes
  end.
Proof.
  unfold convert_pdf_to_images_advanced.
  destruct (convert_pdf_to_images _ _ _ w) as [[e|[payloads urls]] w'] eqn:Hrun;
    cbn [fst]; [|reflexivity].
  destruct (convert_failure_is_handled _ _ _ _ _ _ Hrun) as (e0 & _ & ->).
  destruct (convert_handler_code e0) as (message & code & -> & Hcode).
  cbn. auto.
Qed.

(** X3: the metadata extractor fails with a service code only.  A failed
    validation is re-raised as CONVERSION_FAILED behind the extractor's
    prefix; of the engine's failures, tool-not-installed becomes
    POPPLER_NOT_INSTALLED, a syntax error PDF_CORRUPTED, and every other one,
    a page-count error included, CONVERSION_FAILED around the raw message. *)
Theorem get_pdf_info_failure_mapping pdf_data :
  (forall e, validate_pdf_file pdf_data = inl e ->
     get_pdf_info pdf_data
     = inl (PDF2ImageException ("获取PDF信息失败: " ++ str_exc e) "CONVERSION_FAILED")) /\
  (forall e, validate_pdf_file pdf_data = inr tt ->
     pdfinfo_from_bytes pdf_data true = inl e ->
     exists message code,
       get_pdf_info pdf_data = inl (PDF2ImageException message code) /\
       match e with
       | PDFInfoNotInstalledError _ => code = "POPPLER_NOT_INSTALLED"
       | PDFSyntaxError _ => code = "PDF_CORRUPTED" /\ message = "PDF语法错误: " ++ str_exc e
       | _ => code = "CONVERSION_FAILED" /\ message = "获取PDF信息失败: " ++ str_exc e
       end) /\
  (forall e, get_pdf_info pdf_data = inl e ->
     exists message code, e = PDF2ImageException message code /\ In code service_codes).
Proof.
  split; [|split].
  - intros e Hv. unfold get_pdf_info. rewrite Hv.
    destruct (validate_fails_with_domain_error _ _ Hv) as (m & c & -> & _). reflexivity.
  - intros e Hv He. unfold get_pdf_info. rewrite Hv, He.
    destruct e; do 2 eexists; (split; [reflexivity|]); auto.
  - intros e. unfold get_pdf_info.
    destruct (validate_pdf_file pdf_data) as [e0|[]].
    + intros [= <-]. apply get_pdf_info_handler_code.
    + destruct (pdfinfo_from_bytes pdf_data true) as [e0|info]; [|discriminate].
      intros [= <-]. apply get_pdf_info_handler_code.
Qed.

Lemma download_failure_shape url timeout e :
  download_pdf_from_url url timeout = inl e ->
  exists message, e = PDF2ImageException message "CONVERSION_FAILED".
Proof.
  unfold download_pdf_from_url.
  match goal with |- match ?body with _ => _ end = _ -> _ => destruct body as [e0|data] end;
    [|discriminate].
  destruct e0; intros [= <-]; eexists; reflexivity.
Qed.

(** X4: a fetch fails with CONVERSION_FAILED and nothing else; an exception
    of the HTTP client that is neither a timeout nor a status error is
    wrapped, its text kept behind the download prefix. *)
Theorem download_fails_with_conversion_failed url timeout :
  (forall e, download_pdf_from_url url timeout = inl e ->
     exists message, e = PDF2ImageException message "CONVERSION_FAILED") /\
  (forall e, httpx_get url timeout = inl e ->
     (forall msg, e <> TimeoutException msg) ->
     (forall status msg, e <> HTTPStatusError status msg) ->
     download_pdf_from_url url timeout
     = inl (PDF2ImageException ("下载PDF文件失败: " ++ str_exc e) "CONVERSION_FAILED")).
Proof.
  split.
  - intros e. apply download_failure_shape.
  - intros e He Ht Hs. unfold download_pdf_from_url. rewrite He.
    destruct e; try reflexivity.
    + destruct (Ht msg). reflexivity.
    + destruct (Hs status_code0 msg). reflexivity.
Qed.

(** X5: bytes a fetch returns are the unchanged body of a 2xx response for
    which at least one sign of a PDF was present: the content type, lower
    case, contains [application/pdf], or the URL, lower case, ends in
    [.pdf], or the body starts with [%PDF-]. *)
Theorem download_returns_checked_body url timeout data :
  download_pdf_from_url url timeout = inr data ->
  exists response,
    httpx_get url timeout = inr response /\
    (200 <= status_code response <= 299)%Z /\
    data = content response /\
    (contains "application/pdf" (lower (default "" (headers response !! "content-type")))
     = true \/
     endswith (lower url) ".pdf" = true \/
     firstn 5 data = b "%PDF-").
Proof.
  unfold download_pdf_from_url, raise_for_status.
  destruct (httpx_get url timeout) as [e|response].
  { destruct e; discriminate. }
  destruct (Z.leb_spec 200 (status_code response));
    destruct (Z.leb_spec (status_code response) 299); cbn [andb]; try discriminate.
  destruct (contains _ _) eqn:Hct; cbn [negb andb].
  { intros [= <-]. exists response. repeat split; auto. }
  destruct (endswith _ _) eqn:Hurl; cbn [negb andb].
  { intros [= <-]. exists response. repeat split; auto. }
  destruct (bytes_startswith _ _) eqn:Hbody; cbn [negb]; [|discriminate].
  intros [= <-]. exists response. repeat split; auto.
  right. right. apply (bytes_startswith_firstn _ (b "%PDF-")). exact Hbody.
Qed.

End Failures.

(** ** Strings and file names *)

Lemma chars_app (s1 s2 : string) : chars (s1 ++ s2) = (chars s1 ++ chars s2)%list.
Proof. induction s1 as [|c s1 IH]; simpl; [reflexivity|]. f_equal. exact IH. Qed.

Lemma chars_of_list (l : list ascii) : chars (string_of_list_ascii l) = l.
Proof. apply list_ascii_of_string_of_list_ascii. Qed.

Lemma chars_inj (s1 s2 : string) : chars s1 = chars s2 -> s1 = s2.
Proof.
  intros Heq. rewrite <- (string_of_list_ascii_of_string s1),
    <- (string_of_list_ascii_of_string s2). unfold chars in Heq. rewrite Heq. reflexivity.
Qed.

Lemma ascii_eqb_refl (c : ascii) : Ascii.eqb c c = true.
Proof. apply Ascii.eqb_eq. reflexivity. Qed.

Lemma list_startswith_app (l p : list ascii) :
  list_startswith Ascii.eqb (p ++ l) p = true.
Proof.
  induction p as [|c p IH]; cbn; [reflexivity|]. rewrite ascii_eqb_refl. exact IH.
Qed.

Lemma endswith_app (s suffix : string) : endswith (s ++ suffix) suffix = true.
Proof.
  unfold endswith. rewrite chars_app, rev_app_distr. apply list_startswith_app.
Qed.

(** The text before the first separator of a text determines it. *)
Lemma first_separator (c : ascii) (l1 l2 r1 r2 : list ascii) :
  Forall (fun x => x <> c) l1 -> Forall (fun x => x <> c) l2 ->
  (l1 ++ c :: r1 = l2 ++ c :: r2)%list -> l1 = l2.
Proof.
  revert l2. induction l1 as [|x l1 IH]; intros [|y l2] H1 H2 Heq; cbn in Heq.
  - reflexivity.
  - injection Heq as <- _. apply Forall_cons_1 in H2 as [Hy _]. congruence.
  - injection Heq as -> _. apply Forall_cons_1 in H1 as [Hx _]. congruence.
  - injection Heq as <- Heq. apply Forall_cons_1 in H1 as [_ H1].
    apply Forall_cons_1 in H2 as [_ H2]. f_equal. exact (IH _ H1 H2 Heq).
Qed.

(** Decimal numerals hold digits only. *)
Lemma pretty_N_char_no_underscore (d : N) : pretty_N_char d <> "_"%char.
Proof. unfold pretty_N_char. repeat case_match; discriminate. Qed.

Lemma pretty_N_go_no_underscore (x : N) (s : string) :
  Forall (fun c => c <> "_"%char) (chars s) ->
  Forall (fun c => c <> "_"%char) (chars (pretty_N_go x s)).
Proof.
  revert s. induction (N.lt_wf_0 x) as [x _ IH]; intros s Hs.
  destruct (decide (x = 0)%N) as [->|Hx].
  - rewrite pretty_N_go_0. exact Hs.
  - rewrite pretty_N_go_step by lia. apply IH.
    + apply N.div_lt; lia.
    + cbn. constructor; [apply pretty_N_char_no_underscore|exact Hs].
Qed.

Lemma str_int_no_underscore (z : Z) :
  (0 < z)%Z -> Forall (fun c => c <> "_"%char) (chars (str_int z)).
Proof.
  destruct z as [|p|p]; try lia. intros _.
  unfold str_int, pretty, pretty_Z, pretty, pretty_positive, pretty, pretty_N.
  case_decide; [discriminate|]. apply pretty_N_go_no_underscore. constructor.
Qed.

Section FileNames.
Context {host : Host}.
Import PDFConverterService.

(** File names depend on the position in the clock and random streams
    only, and generating one moves that position by one. *)
Lemma generate_filename_at page_index fmt prefix w :
  generate_filename page_index fmt prefix w
  = (inr (filename_at (ticks w) page_index fmt prefix),
     {| fs_dirs := fs_dirs w; fs_files := fs_files w; ticks := S (ticks w) |}).
Proof.
  unfold filename_at, generate_filename. cbn [ticks].
  destruct (truthy_str prefix); reflexivity.
Qed.

Lemma filename_at_chars tick page_index fmt prefix :
  exists head rest,
    chars (filename_at tick page_index fmt prefix)
    = (head ++ chars (str_int (Z.of_nat page_index + 1)) ++ "_"%char :: rest)%list /\
    head = (if truthy_str prefix
            then chars (default "" prefix) ++ chars "_page_"
            else chars "page_")%list.
Proof.
  unfold filename_at, generate_filename. cbn [ticks].
  destruct (truthy_str prefix); cbn [fst].
  - eexists _, _. split; [|reflexivity].
    rewrite !chars_app. cbn [chars list_ascii_of_string app].
    rewrite <- !app_assoc. cbn [app]. reflexivity.
  - eexists _, _. split; [|reflexivity].
    rewrite !chars_app. cbn [chars list_ascii_of_string app]. reflexivity.
Qed.

(** X6: two pages with different indices never get the same file name
    from the same prefix, whatever the clock and the random source give:
    the page number alone tells the names apart. *)
Theorem generate_filename_distinct_pages i j fmt1 fmt2 prefix w1 w2 f1 f2 w1' w2' :
  i <> j ->
  generate_filename i fmt1 prefix w1 = (inr f1, w1') ->
  generate_filename j fmt2 prefix w2 = (inr f2, w2') ->
  f1 <> f2.
Proof.
  intros Hij. rewrite !generate_filename_at. intros [= <- _] [= <- _] Heq.
  apply (f_equal chars) in Heq.
  destruct (filename_at_chars (ticks w1) i fmt1 prefix) as (h1 & r1 & E1 & ->).
  destruct (filename_at_chars (ticks w2) j fmt2 prefix) as (h2 & r2 & E2 & ->).
  rewrite E1, E2 in Heq. apply app_inv_head in Heq.
  apply first_separator in Heq; try (apply str_int_no_underscore; lia).
  apply chars_inj in Heq. unfold str_int in Heq.
  apply (inj pretty) in Heq. lia.
Qed.

End FileNames.

(** ** Persisting pages *)
Section Persistence.
Context {engine : Engine} {host : Host}.
Import PDFConverterService Main.

Lemma with_suffix_endswith p suffix p' :
  Path.with_suffix p suffix = inr p' -> endswith p' suffix = true.
Proof.
  unfold Path.with_suffix. destruct (Path.split_name _) as [rn r].
  destruct rn; [discriminate|]. intros [= <-]. apply endswith_app.
Qed.

Lemma grows_refl w : grows w w.
Proof. unfold grows. repeat split; auto. Qed.

Lemma grows_trans w1 w2 w3 : grows w1 w2 -> grows w2 w3 -> grows w1 w3.
Proof.
  unfold grows. intros (? & ? & ?) (? & ? & ?). repeat split; [set_solver..|lia].
Qed.

Lemma mkdir_world path w r w' :
  mkdir path w = (r, w') -> grows w w' /\ ticks w' = ticks w /\ fs_files w' = fs_files w.
Proof.
  unfold mkdir, grows. destruct (os_fault path); intros [= <- <-]; cbn;
    repeat split; auto; set_solver.
Qed.

Lemma write_file_world path data w r w' :
  write_file path data w = (r, w') -> grows w w' /\ ticks w' = ticks w.
Proof.
  unfold write_file, grows. destruct (os_fault path); intros [= <- <-]; cbn;
    repeat split; auto. rewrite dom_insert_L. set_solver.
Qed.

Lemma save_image_to_file_world image filepath fmt jpegopt w r w' :
  save_image_to_file image filepath fmt jpegopt w = (r, w') ->
  grows w w' /\ ticks w' = ticks w.
Proof.
  unfold save_image_to_file, try_except, bind, lift, ret, raise.
  destruct (mkdir (Path.parent filepath) w) as [[e|[]] w1] eqn:Hmk;
    apply mkdir_world in Hmk as (Hg1 & Ht1 & _).
  { intros [= <- <-]. auto. }
  destruct (String.eqb (upper fmt) "PPM").
  - destruct (Path.with_suffix filepath ".png") as [e|p]; [intros [= <- <-]; auto|].
    cbn [fst snd]. destruct (Image_save image _) as [e|data]; [intros [= <- <-]; auto|].
    destruct (write_file p data w1) as [[e|[]] w2] eqn:Hwr;
      apply write_file_world in Hwr as (Hg2 & Ht2);
      intros [= <- <-]; (split; [eapply grows_trans; eauto|congruence]).
  - cbn [fst snd]. destruct (Image_save image _) as [e|data]; [intros [= <- <-]; auto|].
    destruct (write_file filepath data w1) as [[e|[]] w2] eqn:Hwr;
      apply write_file_world in Hwr as (Hg2 & Ht2);
      intros [= <- <-]; (split; [eapply grows_trans; eauto|congruence]).
Qed.

Lemma save_image_to_file_failure image filepath fmt jpegopt w e w' :
  save_image_to_file image filepath fmt jpegopt w = (inl e, w') ->
  exists e0, e = ConversionFailedException ("保存图片文件失败: " ++ str_exc e0).
Proof.
  unfold save_image_to_file, try_except.
  match goal with |- match ?body w with _ => _ end = _ -> _ =>
    destruct (body w) as [[e0|p] w0] end; [|discriminate].
  unfold raise. intros [= <- _]. eauto.
Qed.

(** X7: a page saved with a format that upper-cases to [PPM] is written
    to the given path with its suffix replaced by [.png], a path that ends
    in [.png]; with any other format it is written to the given path
    itself.  Afterwards the parent directory is there, the file exists at
    the returned path, and no file name was consumed. *)
Theorem save_image_to_file_path image filepath fmt jpegopt w path' w' :
  save_image_to_file image filepath fmt jpegopt w = (inr path', w') ->
  (if String.eqb (upper fmt) "PPM"
   then Path.with_suffix filepath ".png" = inr path' /\ endswith path' ".png" = true
   else path' = filepath) /\
  Path.parent filepath ∈ fs_dirs w' /\
  is_Some (fs_files w' !! path') /\
  ticks w' = ticks w.
Proof.
  intros Hsave.
  destruct (save_image_to_file_persisted _ _ _ _ _ _ _ Hsave) as (data & _ & Hfile).
  destruct (save_image_to_file_world _ _ _ _ _ _ _ Hsave) as (_ & Hticks).
  split; [|split; [|split; [eauto|exact Hticks]]]; revert Hsave;
    unfold save_image_to_file, try_except, bind, mkdir, write_file, lift, ret, raise;
    (destruct (os_fault (Path.parent filepath)); [discriminate|]);
    destruct (String.eqb (upper fmt) "PPM").
  - destruct (Path.with_suffix filepath ".png") as [e|p] eqn:Hp; [discriminate|].
    cbn [fst snd]. destruct (Image_save image _); [discriminate|].
    destruct (os_fault p); [discriminate|]. intros [= <- _].
    split; [reflexivity|]. exact (with_suffix_endswith _ _ _ Hp).
  - cbn [fst snd]. destruct (Image_save image _); [discriminate|].
    destruct (os_fault filepath); [discriminate|]. intros [= <- _]. reflexivity.
  - destruct (Path.with_suffix filepath ".png") as [e|p]; [discriminate|].
    cbn [fst snd]. destruct (Image_save image _); [discriminate|].
    destruct (os_fault p); [discriminate|]. intros [= _ <-]. cbn. set_solver.
  - cbn [fst snd]. destruct (Image_save image _); [discriminate|].
    destruct (os_fault filepath); [discriminate|]. intros [= _ <-]. cbn. set_solver.
Qed.



Lemma persist_pages_world request filename_prefix output_dir images :
  forall i base64_images file_urls w r w',
    persist_pages request filename_prefix output_dir images i base64_images file_urls w
    = (r, w') -> grows w w'.
Proof.
  induction images as [|img rest IH]; intros i base64_images file_urls w r w'.
  - cbn [persist_pages]. unfold ret. intros [= <- <-]. apply grows_refl.
  - cbn [persist_pages]. unfold bind at 1. rewrite generate_filename_at.
    unfold bind at 1.
    destruct (save_image_to_file img _ _ _ _) as [[e|p] w2] eqn:Hsave;
      apply save_image_to_file_world in Hsave as (Hg & _).
    + intros [= <- <-]. eapply grows_trans; [|exact Hg].
      unfold grows. cbn. repeat split; auto.
    + assert (Hg0 : grows w w2).
      { eapply grows_trans; [|exact Hg]. unfold grows. cbn. repeat split; auto. }
      unfold bind at 1.
      destruct (image_mode request); [|destruct base64_images; cbn [append_payload]].
      * unfold ret at 1. intros Hrest. eapply grows_trans; [exact Hg0|]. eapply IH, Hrest.
      * unfold ret at 1. intros Hrest. eapply grows_trans; [exact Hg0|]. eapply IH, Hrest.
      * unfold raise at 1. intros [= <- <-]. exact Hg0.
Qed.

Lemma persist_pages_failure request filename_prefix output_dir images :
  forall i base64_images file_urls w e w',
    persist_pages request filename_prefix output_dir images i base64_images file_urls w
    = (inl e, w') ->
    (image_mode request = im_path -> is_Some base64_images) ->
    exists e0, e = ConversionFailedException ("保存图片文件失败: " ++ str_exc e0).
Proof.
  induction images as [|img rest IH]; intros i base64_images file_urls w e w'.
  - cbn [persist_pages]. unfold ret. discriminate.
  - cbn [persist_pages]. unfold bind at 1. rewrite generate_filename_at.
    unfold bind at 1.
    destruct (save_image_to_file img _ _ _ _) as [[e1|p] w2] eqn:Hsave.
    + intros [= <- <-] _. exact (save_image_to_file_failure _ _ _ _ _ _ _ Hsave).
    + unfold bind at 1. destruct (image_mode request) eqn:Hm.
      * unfold ret at 1. intros Hrest _. eapply IH; [exact Hrest|discriminate].
      * intros Hrest Hsome. destruct (Hsome eq_refl) as [l ->]. cbn [append_payload] in Hrest.
        unfold ret at 1 in Hrest. eapply IH; [exact Hrest|eauto].
Qed.

End Persistence.

(** ** The orchestrator as a whole *)
Section Orchestration.
Context {engine : Engine} {host : Host}.
Import PDFConverterService Main.

Lemma ensure_output_dir_inv w r w1 :
  ensure_output_dir w = (r, w1) ->
  grows w w1 /\ ticks w1 = ticks w /\
  match r with
  | inr dir => dir = OUTPUT_DIR config /\ os_fault (OUTPUT_DIR config) = None
  | inl e => os_fault (OUTPUT_DIR config) = Some (str_exc e) /\
             e = OtherException (str_exc e) /\ w1 = w
  end.
Proof.
  unfold ensure_output_dir, bind, ret.
  destruct (mkdir (OUTPUT_DIR config) w) as [[e|[]] w0] eqn:Hmk.
  - intros [= <- <-]. pose proof (mkdir_world _ _ _ _ Hmk) as (Hg & Ht & _).
    revert Hmk. unfold mkdir. destruct (os_fault (OUTPUT_DIR config)); [|discriminate].
    intros [= <- <-]. cbn. auto.
  - intros [= <- <-]. pose proof (mkdir_world _ _ _ _ Hmk) as (Hg & Ht & _).
    revert Hmk. unfold mkdir. destruct (os_fault (OUTPUT_DIR config)); [discriminate|].
    auto.
Qed.

Lemma encode_pages_base64_some request images acc o :
  image_mode request = im_base64 ->
  encode_pages request images acc = inr o -> exists out, o = Some out.
Proof.
  intros Hm. revert acc. induction images as [|img rest IH]; intros acc; cbn [encode_pages].
  - intros [= <-]. eauto.
  - rewrite Hm. destruct (Image_save img _); [discriminate|]. apply IH.
Qed.

(** What a completed conversion went through. *)
Lemma convert_success_inv pdf_data request filename_prefix w r w' :
  convert_pdf_to_images pdf_data request filename_prefix w = (inr r, w') ->
  exists images o,
    validate_pdf_file pdf_data = inr tt /\
    convert_from_bytes (convert_params_of pdf_data request) = inr images /\
    match storage_type request with
    | st_file => o = None
    | _ => encode_pages request images [] = inr o
    end /\
    match storage_type request with
    | st_base64 => r = (o, None) /\ w' = w
    | _ =>
        exists w1 r',
          ensure_output_dir w = (inr (OUTPUT_DIR config), w1) /\
          persist_pages request filename_prefix (OUTPUT_DIR config) images 0
            (match image_mode request with
             | im_path => if falsy_list o then Some [] else o
             | im_base64 => o
             end) [] w1 = (inr r', w') /\
          r = (fst r', Some (snd r'))
    end.
Proof.
  unfold convert_pdf_to_images, try_except, convert_body.
  destruct (validate_pdf_file pdf_data) as [e|[]]; [discriminate|].
  rewrite bind_lift_inr.
  destruct (convert_from_bytes _) as [e|images]; [discriminate|].
  rewrite bind_lift_inr, in_storage_base64, in_storage_file.
  assert (Hfile : forall o,
    match bind ensure_output_dir
            (fun output_dir =>
               bind (persist_pages request filename_prefix output_dir images 0
                       (match image_mode request with
                        | im_path => if falsy_list o then Some [] else o
                        | im_base64 => o
                        end) [])
                    (fun r0 => ret (fst r0, Some (snd r0)))) w with
    | (inr x, w0) => (inr x, w0)
    | (inl e, w0) => raise (convert_handler e) w0
    end = (inr r, w') ->
    exists w1 r',
      ensure_output_dir w = (inr (OUTPUT_DIR config), w1) /\
      persist_pages request filename_prefix (OUTPUT_DIR config) images 0
        (match image_mode request with
         | im_path => if falsy_list o then Some [] else o
         | im_base64 => o
         end) [] w1 = (inr r', w') /\
      r = (fst r', Some (snd r'))).
  { intros o. unfold bind at 1.
    destruct (ensure_output_dir w) as [[e|dir] w1] eqn:Hdir; [discriminate|].
    apply ensure_output_dir_inv in Hdir as (_ & _ & -> & _).
    unfold bind at 1.
    destruct (persist_pages _ _ _ _ _ _ _ w1) as [[e|r'] w2] eqn:Hpp; [discriminate|].
    unfold ret. intros [= <- <-]. exists w1, r'. auto. }
  destruct (storage_type request).
  - destruct (encode_pages request images []) as [e|o] eqn:Henc; [discriminate|].
    rewrite bind_lift_inr. unfold ret. intros [= <- <-]. exists images, o.
    repeat split; auto.
  - unfold ret at 1. unfold bind at 1. intros Hrun. exists images, None.
    repeat split; auto.
  - destruct (encode_pages request images []) as [e|o] eqn:Henc; [discriminate|].
    rewrite bind_lift_inr. intros Hrun. exists images, o. repeat split; auto.
Qed.

Lemma convert_body_world pdf_data request filename_prefix w r w' :
  convert_body pdf_data request filename_prefix w = (r, w') -> grows w w'.
Proof.
  unfold convert_body.
  destruct (validate_pdf_file pdf_data) as [e|[]].
  { rewrite bind_lift_inl. intros [= <- <-]. apply grows_refl. }
  rewrite bind_lift_inr.
  destruct (convert_from_bytes _) as [e|images].
  { rewrite bind_lift_inl. intros [= <- <-]. apply grows_refl. }
  rewrite bind_lift_inr.
  assert (Hfile : forall o,
    bind ensure_output_dir
      (fun output_dir =>
         bind (persist_pages request filename_prefix output_dir images 0
                 (match image_mode request with
                  | im_path => if falsy_list o then Some [] else o
                  | im_base64 => o
                  end) [])
              (fun r0 => ret (fst r0, Some (snd r0)))) w = (r, w') -> grows w w').
  { intros o. unfold bind at 1.
    destruct (ensure_output_dir w) as [[e|dir] w1] eqn:Hdir;
      apply ensure_output_dir_inv in Hdir as (Hg & _).
    { intros [= <- <-]. exact Hg. }
    unfold bind at 1.
    destruct (persist_pages _ _ _ _ _ _ _ w1) as [[e|r'] w2] eqn:Hpp;
      apply persist_pages_world in Hpp; intros [= <- <-]; eapply grows_trans; eauto. }
  destruct (in_storage (storage_type request) [st_base64; st_both]).
  - destruct (encode_pages request images []) as [e|o].
    { rewrite bind_lift_inl. intros [= <- <-]. apply grows_refl. }
    rewrite bind_lift_inr.
    destruct (in_storage (storage_type request) [st_file; st_both]); [apply Hfile|].
    unfold ret. intros [= <- <-]. apply grows_refl.
  - unfold ret at 1. unfold bind at 1.
    destruct (in_storage (storage_type request) [st_file; st_both]); [apply Hfile|].
    unfold ret. intros [= <- <-]. apply grows_refl.
Qed.


(** X9: which outputs a completed conversion returns.  The URL list is
    absent exactly under [storage_type = base64].  The inline list is absent
    exactly under [file] storage with base64 mode (nothing asked for it) and
    under [base64] storage with path mode once a page was rendered. *)
Theorem convert_output_presence pdf_data request filename_prefix w images payloads urls w' :
  convert_from_bytes (convert_params_of pdf_data request) = inr images ->
  convert_pdf_to_images pdf_data request filename_prefix w = (inr (payloads, urls), w') ->
  (urls = None <-> storage_type request = st_base64) /\
  (payloads = None <->
     (storage_type request = st_file /\ image_mode request = im_base64) \/
     (storage_type request = st_base64 /\ image_mode request = im_path /\ images <> [])).
Proof.
  intros Himg Hrun.
  destruct (convert_success_inv _ _ _ _ _ _ Hrun) as (images' & o & _ & Himg' & Ho & Hrest).
  rewrite Himg in Himg'. injection Himg' as <-.
  destruct (storage_type request) eqn:Hst, (image_mode request) eqn:Hm.
  - destruct Hrest as [[= -> ->] _].
    destruct (encode_pages_base64_some _ _ _ _ Hm Ho) as (out & ->).
    split; split; try reflexivity; try discriminate.
    intros [[? _]|(_ & ? & _)]; discriminate.
  - destruct Hrest as [[= -> ->] _].
    rewrite (encode_pages_path _ _ _ Hm) in Ho. injection Ho as <-.
    split; [split; reflexivity|]. destruct images as [|img rest].
    + split; [discriminate|]. intros [[? _]|(_ & _ & ?)]; congruence.
    + split; [|reflexivity]. intros _. right. repeat split; discriminate.
  - destruct Hrest as (w1 & r' & _ & Hpp & [= -> ->]). subst o.
    apply persist_pages_shape in Hpp as [_ Hfst]. rewrite Hm in Hfst. rewrite Hfst.
    split; [split; discriminate|]. split; auto.
  - destruct Hrest as (w1 & r' & _ & Hpp & [= -> ->]). subst o.
    apply persist_pages_shape in Hpp as [_ Hfst]. rewrite Hm in Hfst.
    destruct (Hfst _ eq_refl) as (l' & -> & _).
    split; [split; discriminate|]. split; [discriminate|].
    intros [[_ ?]|(? & _)]; discriminate.
  - destruct Hrest as (w1 & r' & _ & Hpp & [= -> ->]).
    destruct (encode_pages_base64_some _ _ _ _ Hm Ho) as (out & ->).
    apply persist_pages_shape in Hpp as [_ Hfst]. rewrite Hm in Hfst. rewrite Hfst.
    split; [split; discriminate|]. split; [discriminate|].
    intros [[? _]|(? & _)]; discriminate.
  - destruct Hrest as (w1 & r' & _ & Hpp & [= -> ->]).
    rewrite (encode_pages_path _ _ _ Hm) in Ho. injection Ho as <-.
    apply persist_pages_shape in Hpp as [_ Hfst]. rewrite Hm in Hfst.
    assert (Hsome : exists l', fst r' = Some l').
    { destruct images; destruct (Hfst _ eq_refl) as (l' & -> & _); eauto. }
    destruct Hsome as (l' & ->).
    split; [split; discriminate|]. split; [discriminate|].
    intros [[? _]|(? & _)]; discriminate.
Qed.

(** X10: in base64 mode, with inline delivery requested, a completed
    conversion returns one payload per rendered page, in page order, and
    each payload base64-decodes to that page's encoding in the requested
    format. *)
Theorem convert_payloads_decode_to_pages
    pdf_data request filename_prefix w images payloads urls w' :
  image_mode request = im_base64 ->
  storage_type request <> st_file ->
  convert_from_bytes (convert_params_of pdf_data request) = inr images ->
  convert_pdf_to_images pdf_data request filename_prefix w = (inr (payloads, urls), w') ->
  exists l,
    payloads = Some l /\
    Forall2 (fun img payload =>
               exists data,
                 Image_save img (encode_kwargs (fmt_str (fmt request)) (jpegopt request))
                 = inr data /\
                 b64decode payload = Some data) images l.
Proof.
  intros Hm Hs Himg Hrun.
  destruct (convert_success_inv _ _ _ _ _ _ Hrun) as (images' & o & _ & Himg' & Ho & Hrest).
  rewrite Himg in Himg'. injection Himg' as <-.
  assert (Henc : encode_pages request images [] = inr o /\ payloads = o).
  { destruct (storage_type request); [| congruence |].
    - destruct Hrest as [[= -> _] _]. auto.
    - destruct Hrest as (w1 & r' & _ & Hpp & [= -> _]).
      apply persist_pages_shape in Hpp as [_ Hfst]. rewrite Hm in Hfst. auto. }
  destruct Henc as [Henc ->].
  destruct (encode_pages_base64_some _ _ _ _ Hm Henc) as (out & ->).
  destruct (encode_pages_base64 _ _ _ _ Hm Henc) as (datas & Hall & ->).
  eexists. split; [reflexivity|]. cbn [app].
  apply Forall2_fmap_r. eapply Forall2_impl; [exact Hall|].
  intros img data Hdata. exists data. split; [exact Hdata|apply b64decode_b64encode].
Qed.

(** X11: a conversion never removes anything: whether it completes or
    fails, every directory and every file that was there before is still
    there, and the clock and random streams have not gone back. *)
Theorem convert_never_removes pdf_data request filename_prefix w :
  grows w (snd (convert_pdf_to_images pdf_data request filename_prefix w)).
Proof.
  unfold convert_pdf_to_images, try_except.
  destruct (convert_body pdf_data request filename_prefix w) as [[e|r] w'] eqn:Hb;
    apply convert_body_world in Hb; exact Hb.
Qed.

(** X12: under [storage_type = file], once validation and rendering have
    succeeded and the output directory could be made, the only way the
    conversion fails is a page that cannot be saved, reported as
    CONVERSION_FAILED with the conversion prefix around the save prefix
    around the raw message. *)
Theorem file_storage_fails_on_save_only pdf_data request filename_prefix w images e w' :
  storage_type request = st_file ->
  validate_pdf_file pdf_data = inr tt ->
  convert_from_bytes (convert_params_of pdf_data request) = inr images ->
  os_fault (OUTPUT_DIR config) = None ->
  convert_pdf_to_images pdf_data request filename_prefix w = (inl e, w') ->
  exists raw,
    e = PDF2ImageException ("PDF转换失败: 保存图片文件失败: " ++ raw) "CONVERSION_FAILED".
Proof.
  intros Hs Hv Himg Hdir Hrun.
  destruct (convert_failure_is_handled _ _ _ _ _ _ Hrun) as (e0 & Hbody & ->).
  revert Hbody. unfold convert_body.
  rewrite Hv, bind_lift_inr, Himg, bind_lift_inr, in_storage_base64, in_storage_file, Hs.
  unfold ret at 1. unfold bind at 1. unfold bind at 1.
  destruct (ensure_output_dir w) as [[e1|dir] w1] eqn:Hmk.
  { apply ensure_output_dir_inv in Hmk as (_ & _ & Hfault & _). congruence. }
  unfold bind at 1.
  destruct (persist_pages _ _ _ _ _ _ _ w1) as [[e1|r'] w2] eqn:Hpp; [|discriminate].
  intros [= <- <-].
  apply persist_pages_failure in Hpp as (e2 & ->).
  - exists (str_exc e2). reflexivity.
  - intros ->. cbn. eauto.
Qed.

(** X13: under [storage_type = file], when the output directory cannot be
    made the conversion fails with CONVERSION_FAILED around the operating
    system's message, and the world is left as it was: no page is saved. *)
Theorem file_storage_needs_output_dir pdf_data request filename_prefix w images msg :
  storage_type request = st_file ->
  validate_pdf_file pdf_data = inr tt ->
  convert_from_bytes (convert_params_of pdf_data request) = inr images ->
  os_fault (OUTPUT_DIR config) = Some msg ->
  convert_pdf_to_images pdf_data request filename_prefix w
  = (inl (PDF2ImageException ("PDF转换失败: " ++ msg) "CONVERSION_FAILED"), w).
Proof.
  intros Hs Hv Himg Hdir. unfold convert_pdf_to_images, try_except, convert_body.
  rewrite Hv, bind_lift_inr, Himg, bind_lift_inr, in_storage_base64, in_storage_file, Hs.
  unfold ret at 1. unfold bind at 1. unfold bind at 1.
  unfold ensure_output_dir, bind, mkdir. rewrite Hdir. reflexivity.
Qed.

End Orchestration.

(** ** URLs and upload names *)

Lemma rstrip_app_slash (s : string) : rstrip (s ++ "/") "/" = rstrip s "/".
Proof.
  unfold rstrip. rewrite chars_app, rev_app_distr. reflexivity.
Qed.

Lemma drop_leading_head (c : ascii) (l : list ascii) :
  list_startswith Ascii.eqb (drop_leading c l) [c] = false.
Proof.
  induction l as [|x l IH]; cbn; [reflexivity|].
  destruct (Ascii.eqb x c) eqn:Hx; [exact IH|]. cbn.
  rewrite Ascii.eqb_sym, Hx. reflexivity.
Qed.

(** X14: the public URL of a file is the configured base URL without its
    trailing slashes, one slash, and the file name: a base URL written with
    one more trailing slash gives the same URL, and the part before the
    joining slash never ends in a slash. *)
Theorem get_file_url_trailing_slash (cfg : Config) (filename : string) :
  (forall cfg', OUTPUT_BASE_URL cfg' = OUTPUT_BASE_URL cfg ++ "/" ->
     get_file_url cfg' filename = get_file_url cfg filename) /\
  (exists base, get_file_url cfg filename = base ++ "/" ++ filename /\
                endswith base "/" = false).
Proof.
  split.
  - intros cfg' Hbase. unfold get_file_url. rewrite Hbase, rstrip_app_slash. reflexivity.
  - exists (rstrip (OUTPUT_BASE_URL cfg) "/"). split; [reflexivity|].
    unfold endswith, rstrip. rewrite chars_of_list, rev_involutive.
    apply drop_leading_head.
Qed.

Lemma lower_char_dot (c : ascii) : lower_char c = "."%char -> c = "."%char.
Proof.
  unfold lower_char. destruct (_ && _) eqn:Hr; [|auto].
  intros Heq. apply (f_equal N_of_ascii) in Heq.
  apply andb_true_iff in Hr as [H1 H2]. apply N.leb_le in H1, H2.
  rewrite N_ascii_embedding in Heq by lia. cbn in Heq. lia.
Qed.

Lemma lower_char_letter (c x : ascii) :
  lower_char c = x -> lower_char "/" <> x -> lower_char "." <> x ->
  c <> "/"%char /\ c <> "."%char.
Proof. intros Hc H1 H2. split; intros ->; congruence. Qed.

Lemma split_name_no_sep (l : list ascii) :
  Forall (fun c => c <> Path.sep) l -> Path.split_name l = (l, []).
Proof.
  induction 1 as [|c l Hc _ IH]; cbn; [reflexivity|].
  destruct (Ascii.eqb_spec c Path.sep); [contradiction|]. rewrite IH. reflexivity.
Qed.

Lemma lower_app (s1 s2 : string) : lower (s1 ++ s2) = lower s1 ++ lower s2.
Proof.
  apply chars_inj. unfold lower.
  rewrite chars_of_list, (chars_app s1 s2), map_app, chars_app, !chars_of_list.
  reflexivity.
Qed.

Section Uploads.
Context {engine : Engine} {host : Host} {framework : Routes.Framework}.
Import PDFConverterService Main.

(** X15: an upload named [stem] followed by an extension that reads
    [.pdf] in lower case, where [stem] has no slash and is not made of dots
    only, passes [validate_file], and the prefix of its page files is
    [stem]. *)
Theorem upload_name_gives_prefix (stem ext : string) :
  lower ext = ".pdf" ->
  Forall (fun c => c <> "/"%char) (chars stem) ->
  Exists (fun c => c <> "."%char) (chars stem) ->
  Routes.validate_file (stem ++ ext) = inr (stem ++ ext) /\
  Path.splitext_root (stem ++ ext) = stem.
Proof.
  intros Hext Hsep Hdot. split.
  - unfold Routes.validate_file. rewrite lower_app, Hext, endswith_app. reflexivity.
  - apply (f_equal chars) in Hext. unfold lower in Hext. rewrite chars_of_list in Hext.
    destruct (chars ext) as [|x1 [|x2 [|x3 [|x4 [|x5 rest]]]]] eqn:Hchars;
      try discriminate. cbn in Hext. injection Hext as H1 H2 H3 H4.
    apply lower_char_dot in H1. subst x1.
    destruct (lower_char_letter _ _ H2) as [Hs2 Hd2]; [discriminate..|].
    destruct (lower_char_letter _ _ H3) as [Hs3 Hd3]; [discriminate..|].
    destruct (lower_char_letter _ _ H4) as [Hs4 Hd4]; [discriminate..|].
    unfold Path.splitext_root. rewrite chars_app, Hchars, rev_app_distr. cbn [rev app].
    cbn [Path.split_name].
    destruct (Ascii.eqb_spec x4 Path.sep) as [|_]; [contradiction|].
    destruct (Ascii.eqb_spec x3 Path.sep) as [|_]; [contradiction|].
    destruct (Ascii.eqb_spec x2 Path.sep) as [|_]; [contradiction|].
    change (Ascii.eqb "." Path.sep) with false. cbn match.
    rewrite split_name_no_sep by (apply Forall_rev; exact Hsep).
    cbn [Path.rfind_dot].
    destruct (Ascii.eqb_spec x4 Path.dot) as [|_]; [contradiction|].
    destruct (Ascii.eqb_spec x3 Path.dot) as [|_]; [contradiction|].
    destruct (Ascii.eqb_spec x2 Path.dot) as [|_]; [contradiction|].
    change (Ascii.eqb "." Path.dot) with true. cbn [fmap option_fmap option_map skipn].
    assert (Hex : existsb (fun c => negb (Ascii.eqb c Path.dot)) (rev (chars stem)) = true).
    { apply existsb_exists. apply Exists_exists in Hdot as (c & Hin & Hc).
      exists c. split.
      - apply in_rev. rewrite rev_involutive. apply list_elem_of_In. exact Hin.
      - apply negb_true_iff, Ascii.eqb_neq. exact Hc. }
    rewrite !drop_0, Hex. cbn [rev app]. rewrite rev_involutive.
    apply string_of_list_ascii_of_string.
Qed.

Lemma parse_fmt_str s f : Routes.parse_fmt s = Some f -> fmt_str f = s.
Proof.
  unfold Routes.parse_fmt.
  repeat match goal with
         | |- context [String.eqb s ?x] => destruct (String.eqb_spec s x); [subst|]
         end; intros [= <-]; reflexivity.
Qed.

Lemma parse_storage_type_str s t :
  Routes.parse_storage_type s = Some t -> storage_type_str t = s.
Proof.
  unfold Routes.parse_storage_type.
  repeat match goal with
         | |- context [String.eqb s ?x] => destruct (String.eqb_spec s x); [subst|]
         end; intros [= <-]; reflexivity.
Qed.

Lemma parse_image_mode_str s m :
  Routes.parse_image_mode s = Some m -> image_mode_str m = s.
Proof.
  unfold Routes.parse_image_mode.
  repeat match goal with
         | |- context [String.eqb s ?x] => destruct (String.eqb_spec s x); [subst|]
         end; intros [= <-]; reflexivity.
Qed.

Lemma ConversionRequest_init_inv q request :
  Routes.ConversionRequest_init q = Some request ->
  Routes.fields_valid q = true /\
  Routes.parse_fmt (Routes.q_fmt q) = Some (fmt request) /\
  Routes.parse_storage_type (Routes.q_storage_type q) = Some (storage_type request) /\
  Routes.parse_image_mode (Routes.q_image_mode q) = Some (image_mode request).
Proof.
  unfold Routes.ConversionRequest_init.
  destruct (Routes.fields_valid q); [|discriminate].
  destruct (Routes.parse_fmt _); [|discriminate].
  destruct (Routes.parse_storage_type _); [|discriminate].
  destruct (Routes.parse_image_mode _); [|discriminate].
  cbn. intros [= <-]. auto.
Qed.


(** X17: on a query that meets the field constraints, [/convert] answers
    exactly what [/convert-advanced] answers for the request built from it
    (with no jpeg options), the format, storage type and image mode echoed
    in the response included. *)
Theorem convert_route_agrees_with_advanced q request filename pdf_data w :
  Routes.ConversionRequest_init q = Some request ->
  Routes.convert_pdf_to_images q filename pdf_data w
  = convert_pdf_to_images_advanced request filename pdf_data w.
Proof.
  intros Hinit. unfold Routes.convert_pdf_to_images, convert_pdf_to_images_advanced.
  rewrite Hinit.
  destruct (ConversionRequest_init_inv _ _ Hinit) as (_ & Hf & Hs & Hm).
  rewrite (parse_fmt_str _ _ Hf), (parse_storage_type_str _ _ Hs),
    (parse_image_mode_str _ _ Hm). reflexivity.
Qed.

(** X18: [/convert] answers 500 INTERNAL_ERROR exactly when the request
    cannot be built from the query, the validation error being caught by
    the catch-all handler, and then nothing was rendered or written; once
    the request is built a failure is a 400 with one of the three service
    codes. *)
Theorem convert_route_statuses q filename pdf_data w :
  match Routes.convert_pdf_to_images q filename pdf_data w with
  | (Ok body, _) => is_Some (Routes.ConversionRequest_init q) /\ success body = true
  | (Error status body, w') =>
      (status = 500%Z /\ Routes.ConversionRequest_init q = None /\
       err_error_code body = "INTERNAL_ERROR" /\
       err_message body = "服务器内部错误: " ++ Routes.validation_error_text q /\
       w' = w) \/
      (status = 400%Z /\ is_Some (Routes.ConversionRequest_init q) /\
       In (err_error_code body) service_codes)
  end.
Proof.
  unfold Routes.convert_pdf_to_images.
  destruct (Routes.ConversionRequest_init q) as [request|].
  - destruct (convert_pdf_to_images _ _ _ w) as [[e|[payloads urls]] w'] eqn:Hrun.
    + destruct (convert_failure_is_handled _ _ _ _ _ _ Hrun) as (e0 & _ & ->).
      destruct (convert_handler_code e0) as (m & c & -> & Hc). cbn. right. eauto.
    + cbn. eauto.
  - cbn. left. repeat split; auto.
Qed.

(** X19: [/convert-from-url] never answers 500.  When the fetch fails the
    answer is a 400 with code CONVERSION_FAILED and the fetch's message, and
    the world is untouched: no conversion was attempted.  When it succeeds
    the answer is that of the conversion of the fetched bytes: a success, or
    a 400 with one of the three service codes. *)
Theorem url_route_statuses (request : Routes.URLConversionRequest) w :
  match download_pdf_from_url (Routes.pdf_url request) (Routes.u_timeout request),
        Routes.convert_pdf_from_url request w with
  | inl e, (answer, w') =>
      answer = Error 400 {| err_success := false; err_message := str_exc e;
                            err_error_code := "CONVERSION_FAILED" |} /\
      w' = w
  | inr _, (Ok body, _) => success body = true
  | inr _, (Error status body, _) =>
      status = 400%Z /\ In (err_error_code body) service_codes
  end.
Proof.
  unfold Routes.convert_pdf_from_url.
  destruct (download_pdf_from_url _ _) as [e|pdf_data] eqn:Hfetch.
  - destruct (download_failure_shape _ _ _ Hfetch) as (m & ->). cbn. auto.
  - destruct (convert_pdf_to_images _ _ _ w) as [[e|[payloads urls]] w'] eqn:Hrun.
    + destruct (convert_failure_is_handled _ _ _ _ _ _ Hrun) as (e0 & _ & ->).
      destruct (convert_handler_code e0) as (m & c & -> & Hc). cbn. auto.
    + cbn. reflexivity.
Qed.

End Uploads.

(** ** The service on the concrete engine and host *)
Import PDFConverterService Main Fixture.

(** C4, on concrete inputs. *)
Lemma validate_pdf_file_cases_witness :
  validate_pdf_file [] = inl (PDF2ImageException "文件为空" "EMPTY_FILE") /\
  validate_pdf_file (host := small_host) (b "%PDF-1.7 with a body")
  = inl (PDF2ImageException "文件大小超过限制 (0MB)" "FILE_TOO_LARGE") /\
  validate_pdf_file (b "GIF89a")
  = inl (PDF2ImageException "不是有效的PDF文件" "INVALID_PDF_FORMAT") /\
  validate_pdf_file (b "%PDF-1.7") = inr tt.
Proof.
  split; [|split; [|split]].
  - apply (proj1 (validate_pdf_file_cases [])). reflexivity.
  - apply (proj1 (proj2 (validate_pdf_file_cases (host := small_host)
                           (b "%PDF-1.7 with a body")))).
    + discriminate.
    + vm_compute. reflexivity.
  - apply (proj1 (proj2 (proj2 (validate_pdf_file_cases (b "GIF89a"))))).
    + discriminate.
    + vm_compute. discriminate.
    + vm_compute. discriminate.
  - apply (proj2 (proj2 (proj2 (validate_pdf_file_cases (b "%PDF-1.7"))))).
    + discriminate.
    + vm_compute. discriminate.
    + vm_compute. reflexivity.
Defined.

(** C6, on a document the engine rejects for its syntax. *)
Lemma convert_engine_failure_mapping_witness :
  exists message code,
    convert_pdf_to_images (b "%PDF-!S") request0 None world0
    = (inl (PDF2ImageException message code), world0) /\
    code = "PDF_CORRUPTED".
Proof.
  apply (convert_engine_failure_mapping (b "%PDF-!S") request0 None world0
           (PDFSyntaxError "Syntax Error: Couldn't read xref table")).
  - vm_compute. reflexivity.
  - vm_compute. reflexivity.
Defined.

(** C10, on a two-page document. *)
Lemma convert_base64_leaves_world_witness :
  snd (convert_pdf_to_images (b "%PDF-ab") request0 (Some "doc") world0) = world0.
Proof.
  apply (convert_base64_leaves_world (b "%PDF-ab") request0 (Some "doc") world0).
  reflexivity.
Defined.

(** C8, on the second page of a two-page document rendered as jpeg. *)
Lemma payload_decodes_to_persisted_bytes_witness :
  exists payload data,
    ["SlBFRzph"; "SlBFRzpi"] !! 1%nat = Some payload /\
    b64decode payload = Some data /\
    fs_files (snd (save_image_to_file (b "b") "/tmp/pdf2image_output/p2.jpeg" "jpeg" None
                     world0))
      !! "/tmp/pdf2image_output/p2.jpeg" = Some data.
Proof.
  apply (payload_decodes_to_persisted_bytes (engine := Fixture.engine)
           (with_policy request0 jpeg st_both im_base64)
           [b "a"; b "b"] ["SlBFRzph"; "SlBFRzpi"] 1 (b "b")
           "/tmp/pdf2image_output/p2.jpeg" world0).
  - reflexivity.
  - vm_compute. reflexivity.
  - reflexivity.
  - vm_compute. reflexivity.
Defined.

(** C9, on a document for which the engine reports no author. *)
Lemma get_pdf_info_fixed_fields_witness :
  exists result,
    get_pdf_info (b "%PDF-abc") = inr result /\
    dom result = list_to_set (map fst info_fields) /\
    result !! "pages" = Some (VInt 3) /\
    result !! "author" = Some VNone.
Proof.
  destruct (get_pdf_info_fixed_fields (b "%PDF-abc")
              (<["Pages" := VInt 3]>
               (<["Title" := VStr "Quarterly report"]>
               (<["Producer" := VStr "pdfTeX-1.40"]> ∅))))
    as (result & Hresult & Hdom & Hfields & Hnone).
  - vm_compute. reflexivity.
  - vm_compute. reflexivity.
  - exists result. split; [exact Hresult|]. split; [exact Hdom|]. split.
    + apply Forall_cons_1 in Hfields as [Hpages _]. cbn [fst snd] in Hpages.
      rewrite Hpages. vm_compute. reflexivity.
    + apply (Hnone ("author", "Author")).
      * cbn. auto.
      * vm_compute. reflexivity.
Defined.

(** C7 as stated fails: the content type does not contain
    [application/pdf], the URL does not end in [.pdf] and the body does not
    start with [%PDF-], and yet the body is returned, because the URL is
    compared in lower case. *)
Lemma download_accepts_upper_case_pdf_url :
  exists response,
    httpx_get "http://files.example/NOTES.PDF" 30 = inr response /\
    status_code response = 200%Z /\
    contains "application/pdf" (default "" (headers response !! "content-type")) = false /\
    endswith "http://files.example/NOTES.PDF" ".pdf" = false /\
    bytes_startswith (content response) (b "%PDF-") = false /\
    download_pdf_from_url "http://files.example/NOTES.PDF" 30 = inr (content response).
Proof. eexists. repeat split; vm_compute; reflexivity. Qed.

(** C7 as amended, on a slow server, a missing document and a web page. *)
Lemma download_pdf_from_url_cases_witness :
  download_pdf_from_url "http://files.example/slow" 30
  = inl (PDF2ImageException "下载PDF文件超时" "CONVERSION_FAILED") /\
  download_pdf_from_url "http://files.example/missing" 30
  = inl (PDF2ImageException "下载PDF文件失败: HTTP 404" "CONVERSION_FAILED") /\
  download_pdf_from_url "http://files.example/page" 30
  = inl (PDF2ImageException "下载PDF文件失败: URL返回的不是有效的PDF文件" "CONVERSION_FAILED") /\
  download_pdf_from_url "http://files.example/report" 30 = inr (b "%PDF-ab").
Proof.
  split; [|split; [|split]].
  - apply (proj1 (download_pdf_from_url_cases "http://files.example/slow" 30) "timed out").
    reflexivity.
  - apply (proj1 (proj2 (download_pdf_from_url_cases "http://files.example/missing" 30))
             {| status_code := 404; headers := ∅; content := b "Not Found" |}).
    + reflexivity.
    + cbn. lia.
  - eapply eq_trans.
    + apply (proj2 (proj2 (download_pdf_from_url_cases "http://files.example/page" 30))
               {| status_code := 200;
                  headers := {[ "content-type" := "text/html" ]};
                  content := b "<html>hello</html>" |}).
      * reflexivity.
      * cbn. lia.
    + vm_compute. reflexivity.
  - eapply eq_trans.
    + apply (proj2 (proj2 (download_pdf_from_url_cases "http://files.example/report" 30))
               {| status_code := 200;
                  headers := {[ "content-type" := "Application/PDF" ]};
                  content := b "%PDF-ab" |}).
      * reflexivity.
      * cbn. lia.
    + vm_compute. reflexivity.
Defined.

(** C2 (as the code behaves): for ppm with file storage and path mode the
    page is saved as a png file whose name ends in [.png], while the URL and
    the inline path both name a [.ppm] file that was never written. *)
Theorem ppm_url_and_path_name_unwritten_file :
  let run := convert_pdf_to_images (b "%PDF-a")
               (with_policy request0 ppm st_file im_path) (Some "doc") world0 in
  fst run
  = inr (Some ["/tmp/pdf2image_output/doc_page_1_20240101_120000_3f2a9c1e.ppm"],
         Some ["http://localhost:8000/files/doc_page_1_20240101_120000_3f2a9c1e.ppm"]) /\
  fs_files (snd run) !! "/tmp/pdf2image_output/doc_page_1_20240101_120000_3f2a9c1e.png"
  = Some (b "PNG:a") /\
  fs_files (snd run) !! "/tmp/pdf2image_output/doc_page_1_20240101_120000_3f2a9c1e.ppm"
  = None /\
  dom (fs_files (snd run))
  = {[ "/tmp/pdf2image_output/doc_page_1_20240101_120000_3f2a9c1e.png" ]}.
Proof. repeat split; vm_compute; reflexivity. Qed.

(** C3 (as the code behaves): for a one-page document under
    [storage_type = base64] and [image_mode = path] the engine renders one
    page and the endpoint answers success with [pages_count = 0]. *)
Theorem advanced_base64_path_reports_zero_pages :
  convert_from_bytes
    (convert_params_of (b "%PDF-a") (with_policy request0 png st_base64 im_path))
  = inr [b "a"] /\
  convert_pdf_to_images_advanced (with_policy request0 png st_base64 im_path)
    (Some "doc.pdf") (b "%PDF-a") world0
  = (Ok {| success := true;
           message := "PDF转换成功";
           pages_count := 0;
           images := None;
           file_urls := None;
           format := "png";
           resp_storage_type := "base64";
           resp_image_mode := "path" |}, world0).
Proof. split; vm_compute; reflexivity. Qed.

(** C5 (as the code behaves): a successful conversion under
    [storage_type = base64] and [image_mode = path] whose page range lies
    beyond the document returns an empty payload list, not an absent one. *)
Theorem base64_path_without_pages_returns_empty_list :
  convert_pdf_to_images (b "%PDF-a")
    (from_page (with_policy request0 png st_base64 im_path) 5) None world0
  = (inr (Some [], None), world0).
Proof. vm_compute. reflexivity. Qed.

(** ** The further properties on the concrete engine and host *)

Lemma convert_fails_with_service_code_witness :
  exists message code,
    PDF2ImageException "PDF转换失败: 不是有效的PDF文件" "CONVERSION_FAILED"
    = PDF2ImageException message code /\ In code service_codes.
Proof.
  apply (convert_fails_with_service_code (b "GIF89a") request0 None world0 _ world0).
  vm_compute. reflexivity.
Defined.

Lemma get_pdf_info_failure_mapping_witness :
  get_pdf_info (b "GIF89a")
  = inl (PDF2ImageException "获取PDF信息失败: 不是有效的PDF文件" "CONVERSION_FAILED") /\
  exists message code,
    get_pdf_info (b "%PDF-!C") = inl (PDF2ImageException message code) /\
    code = "CONVERSION_FAILED" /\
    message = "获取PDF信息失败: Unable to get page count.".
Proof.
  split.
  - apply (proj1 (get_pdf_info_failure_mapping (b "GIF89a"))
             (PDF2ImageException "不是有效的PDF文件" "INVALID_PDF_FORMAT")).
    vm_compute. reflexivity.
  - apply (proj1 (proj2 (get_pdf_info_failure_mapping (b "%PDF-!C")))
             (PDFPageCountError "Unable to get page count.")).
    + vm_compute. reflexivity.
    + vm_compute. reflexivity.
Defined.

Lemma download_fails_with_conversion_failed_witness :
  download_pdf_from_url (host := offline_host) "http://files.example/report" 30
  = inl (PDF2ImageException "下载PDF文件失败: All connection attempts failed"
           "CONVERSION_FAILED").
Proof.
  apply (proj2 (download_fails_with_conversion_failed (host := offline_host)
                  "http://files.example/report" 30)
           (OtherException "All connection attempts failed")).
  - reflexivity.
  - discriminate.
  - discriminate.
Defined.

Lemma download_returns_checked_body_witness :
  exists response,
    httpx_get "http://files.example/report" 30 = inr response /\
    (200 <= status_code response <= 299)%Z /\
    b "%PDF-ab" = content response /\
    (contains "application/pdf" (lower (default "" (headers response !! "content-type")))
     = true \/
     endswith (lower "http://files.example/report") ".pdf" = true \/
     firstn 5 (b "%PDF-ab") = b "%PDF-").
Proof.
  apply (download_returns_checked_body "http://files.example/report" 30 (b "%PDF-ab")).
  vm_compute. reflexivity.
Defined.

Lemma generate_filename_distinct_pages_witness :
  "doc_page_1_20240101_120000_3f2a9c1e.png" <> "doc_page_2_20240101_120000_3f2a9c1e.png".
Proof.
  apply (generate_filename_distinct_pages 0 1 "png" "png" (Some "doc") world0 world0
           _ _ {| fs_dirs := ∅; fs_files := ∅; ticks := 1 |}
           {| fs_dirs := ∅; fs_files := ∅; ticks := 1 |}).
  - lia.
  - vm_compute. reflexivity.
  - vm_compute. reflexivity.
Defined.

Lemma save_image_to_file_path_witness :
  Path.with_suffix "/tmp/pdf2image_output/p1.ppm" ".png"
  = inr "/tmp/pdf2image_output/p1.png" /\
  endswith "/tmp/pdf2image_output/p1.png" ".png" = true.
Proof.
  apply (save_image_to_file_path (engine := Fixture.engine) (b "a")
           "/tmp/pdf2image_output/p1.ppm" "ppm" None world0
           "/tmp/pdf2image_output/p1.png"
           (snd (save_image_to_file (engine := Fixture.engine) (b "a")
                   "/tmp/pdf2image_output/p1.ppm" "ppm" None world0))).
  vm_compute. reflexivity.
Defined.


Lemma convert_output_presence_witness :
  (@None (list string) = None <-> st_file = st_file /\ im_base64 = im_base64 \/
     st_file = st_base64 /\ im_base64 = im_path /\ [b "a"] <> []) /\
  (Some ["http://localhost:8000/files/page_1_20240101_120000_3f2a9c1e.png"] = None
   <-> st_file = st_base64).
Proof.
  destruct (convert_output_presence (engine := Fixture.engine) (b "%PDF-a")
              (with_policy request0 png st_file im_base64) None world0 [b "a"]
              None (Some ["http://localhost:8000/files/page_1_20240101_120000_3f2a9c1e.png"])
              (snd (convert_pdf_to_images (b "%PDF-a")
                      (with_policy request0 png st_file im_base64) None world0)))
    as (Hurls & Hpayloads).
  - vm_compute. reflexivity.
  - vm_compute. reflexivity.
  - split; [exact Hpayloads|exact Hurls].
Defined.

Lemma convert_payloads_decode_to_pages_witness :
  exists l,
    Some ["UE5HOmE="; "UE5HOmI="] = Some l /\
    Forall2 (fun img payload =>
               exists data,
                 Image_save (Engine := Fixture.engine) img (encode_kwargs "png" None)
                 = inr data /\
                 b64decode payload = Some data) [b "a"; b "b"] l.
Proof.
  apply (convert_payloads_decode_to_pages (engine := Fixture.engine) (b "%PDF-ab")
           request0 None world0 [b "a"; b "b"] (Some ["UE5HOmE="; "UE5HOmI="]) None world0).
  - reflexivity.
  - discriminate.
  - vm_compute. reflexivity.
  - vm_compute. reflexivity.
Defined.

Lemma file_storage_fails_on_save_only_witness :
  exists raw,
    PDF2ImageException
      "PDF转换失败: 保存图片文件失败: [Errno 28] No space left on device"
      "CONVERSION_FAILED"
    = PDF2ImageException ("PDF转换失败: 保存图片文件失败: " ++ raw) "CONVERSION_FAILED".
Proof.
  apply (file_storage_fails_on_save_only (engine := Fixture.engine) (host := full_host)
           (b "%PDF-a") (with_policy request0 png st_file im_path) None world0 [b "a"] _
           (snd (convert_pdf_to_images (host := full_host) (b "%PDF-a")
                   (with_policy request0 png st_file im_path) None world0))).
  - reflexivity.
  - vm_compute. reflexivity.
  - vm_compute. reflexivity.
  - vm_compute. reflexivity.
  - vm_compute. reflexivity.
Defined.

Lemma file_storage_needs_output_dir_witness :
  convert_pdf_to_images (host := readonly_host) (b "%PDF-a")
    (with_policy request0 png st_file im_path) None world0
  = (inl (PDF2ImageException
            ("PDF转换失败: " ++ "[Errno 13] Permission denied: '/tmp/pdf2image_output'")
            "CONVERSION_FAILED"), world0).
Proof.
  apply (file_storage_needs_output_dir (engine := Fixture.engine) (host := readonly_host)
           (b "%PDF-a") (with_policy request0 png st_file im_path) None world0 [b "a"]).
  - reflexivity.
  - vm_compute. reflexivity.
  - vm_compute. reflexivity.
  - vm_compute. reflexivity.
Defined.

Lemma get_file_url_trailing_slash_witness :
  get_file_url {| OUTPUT_STORAGE_TYPE := "file"; OUTPUT_DIR := "/srv/out";
                  OUTPUT_BASE_URL := "https://cdn.example/files/";
                  MAX_FILE_SIZE := 1024; POPPLER_PATH := None |} "p.png"
  = get_file_url {| OUTPUT_STORAGE_TYPE := "file"; OUTPUT_DIR := "/srv/out";
                    OUTPUT_BASE_URL := "https://cdn.example/files";
                    MAX_FILE_SIZE := 1024; POPPLER_PATH := None |} "p.png".
Proof.
  apply (proj1 (get_file_url_trailing_slash
                  {| OUTPUT_STORAGE_TYPE := "file"; OUTPUT_DIR := "/srv/out";
                     OUTPUT_BASE_URL := "https://cdn.example/files";
                     MAX_FILE_SIZE := 1024; POPPLER_PATH := None |} "p.png")).
  reflexivity.
Defined.

Lemma upload_name_gives_prefix_witness :
  Routes.validate_file ("annual.report" ++ ".PDF") = inr ("annual.report" ++ ".PDF") /\
  Path.splitext_root ("annual.report" ++ ".PDF") = "annual.report".
Proof.
  apply (upload_name_gives_prefix "annual.report" ".PDF").
  - vm_compute. reflexivity.
  - vm_compute. repeat constructor; discriminate.
  - vm_compute. apply Exists_cons_hd. discriminate.
Defined.


Lemma convert_route_agrees_with_advanced_witness :
  Routes.convert_pdf_to_images query0 (Some "doc.pdf") (b "%PDF-a") world0
  = convert_pdf_to_images_advanced (with_policy request0 png st_file im_path)
      (Some "doc.pdf") (b "%PDF-a") world0.
Proof.
  apply (convert_route_agrees_with_advanced query0). vm_compute. reflexivity.
Defined.

Lemma advanced_counts_pages_witness :
  pages_count
    {| success := true;
       message := "PDF转换成功";
       pages_count := 2;
       images :=
         Some ["/tmp/pdf2image_output/doc_page_1_20240101_120000_3f2a9c1e.png";
               "/tmp/pdf2image_output/doc_page_2_20240101_120000_3f2a9c1e.png"];
       file_urls :=
         Some ["http://localhost:8000/files/doc_page_1_20240101_120000_3f2a9c1e.png";
               "http://localhost:8000/files/doc_page_2_20240101_120000_3f2a9c1e.png"];
       format := "png";
       resp_storage_type := "file";
       resp_image_mode := "path" |}
  = length [b "a"; b "b"].
Proof.
  apply (advanced_counts_pages (engine := Fixture.engine)
           (with_policy request0 png st_file im_path) (Some "doc.pdf")
           (b "%PDF-ab") world0 _
           (snd (convert_pdf_to_images_advanced (with_policy request0 png st_file im_path)
                   (Some "doc.pdf") (b "%PDF-ab") world0))
           [b "a"; b "b"]).
  - cbn. discriminate.
  - vm_compute. reflexivity.
  - vm_compute. reflexivity.
Defined.
